(** * The discrete-action DQN training step of [ml/rl/training/_dqn_trainer.py]

    A shallow embedding of [_DQNTrainer]: its constructor, [train] and
    [calculate_cpes].  Tensor entries are real numbers (exact arithmetic
    stands for the float tensors of the source); a [batch x 1] tensor is a
    column [list R], a [batch x k] tensor a list of rows.  Networks,
    optimizers and automatic differentiation are the external collaborators
    of the trainer and appear as interfaces. *)

From Stdlib Require Import Reals Lra ZArith Lia List String Bool.
From stdpp Require Import base list strings.
Import ListNotations.
Open Scope R_scope.

(** ** Tensors *)

Abbreviation Column := (list R).
Abbreviation Tensor := (list (list R)).

(** [torch.sum(x, 1, keepdim=True)] on one row. *)
Definition row_sum (row : list R) : R := foldr Rplus 0 row.

(** [torch.sum(a * b, 1, keepdim=True)]: the row-wise inner product. *)
Definition dot (a b : list R) : R := row_sum (zip_with Rmult a b).

(** [torch.full_like(x, v)] for a column. *)
Definition full_like (x : Column) (v : R) : Column := (fun _ => v) <$> x.

(** [x.float()] for a boolean flag tensor. *)
Definition b2R (b : bool) : R := if b then 1 else 0.

(** A row with a single 1 at position [k] (the encoding of actions). *)
Fixpoint one_hot (n k : nat) : list R :=
  match n with
  | O => []
  | S n' => match k with
            | O => 1 :: replicate n' 0
            | S k' => 0 :: one_hot n' k'
            end
  end.

(** [row.argmax()]: position of the first greatest entry ([0] for the empty
    row, which the batches of the trainer never contain). *)
Fixpoint argmax_from (best : R) (besti : nat) (i : nat) (row : list R) : nat :=
  match row with
  | [] => besti
  | x :: rest =>
      if Rlt_dec best x then argmax_from x i (S i) rest
      else argmax_from best besti (S i) rest
  end.

Definition argmax (row : list R) : nat :=
  match row with
  | [] => O
  | x :: rest => argmax_from x O 1%nat rest
  end.

(** [torch.arange(0, stop, step)] on naturals; PyTorch rejects a zero step. *)
Fixpoint arange_fuel (fuel start stop step : nat) : list nat :=
  match fuel with
  | O => []
  | S fuel' =>
      if (start <? stop)%nat
      then start :: arange_fuel fuel' (start + step) stop step
      else []
  end.

(** ** Errors of the Python program *)

Inductive error : Type :=
| AssertionError (msg : string)
| ValueError (msg : string)
| AttributeError (attr : string)
| IndexError
| RuntimeError (msg : string)
| PreconditionViolation.

Inductive result (A : Type) : Type :=
| Ok (a : A)
| Raise (e : error).
Arguments Ok {A} a.
Arguments Raise {A} e.

Definition rbind {A B} (m : result A) (k : A -> result B) : result B :=
  match m with
  | Ok a => k a
  | Raise e => Raise e
  end.

Notation "'let*' p ':=' m 'in' k" := (rbind m (fun p => k))
  (at level 10, p pattern, m at level 100, k at level 200).

Fixpoint rmapM {A B} (f : A -> result B) (l : list A) : result (list B) :=
  match l with
  | [] => Ok []
  | a :: rest => let* b := f a in let* bs := rmapM f rest in Ok (b :: bs)
  end.

(** The two kinds of configuration error of section 7 of the specification:
    the assertions on the CPE networks and the failed lookup of a boosted
    action, together with the read of an attribute the constructor never
    set. *)
Definition is_config_error (e : error) : bool :=
  match e with
  | AssertionError _ | ValueError _ | AttributeError _ => true
  | _ => false
  end.

Definition arange (stop step : nat) : result (list nat) :=
  match step with
  | O => Raise (RuntimeError "step must be nonzero")
  | S _ => Ok (arange_fuel stop 0 stop step)
  end.

(** [row.gather(idxs)] on one row: PyTorch raises on an index out of range. *)
Definition gather_row (row : list R) (idxs : list nat) : result (list R) :=
  rmapM (fun i => match row !! i with
                  | Some v => Ok v
                  | None => Raise IndexError
                  end) idxs.

(** The rows of [t.gather(1, offsets + idxs)]: [offsets] is one-dimensional,
    [idxs] a column, so the index tensor is [offsets + i] on the row of
    index [i]; the result has the rows of the index tensor. *)
Fixpoint gather_rows (t : Tensor) (offsets : list nat) (idxs : list nat)
  : result Tensor :=
  match t, idxs with
  | row :: t', i :: idxs' =>
      let* r := gather_row row ((fun off => (off + i)%nat) <$> offsets) in
      let* rs := gather_rows t' offsets idxs' in
      Ok (r :: rs)
  | _, _ => Ok []
  end.

(** [t.gather(1, offsets + idxs)]: PyTorch first rejects an index tensor
    with more rows than [t]. *)
Definition gather_offsets (t : Tensor) (offsets : list nat) (idxs : list nat)
  : result Tensor :=
  if (length t <? length idxs)%nat
  then Raise (RuntimeError "Size does not match")
  else gather_rows t offsets idxs.

(** [list.index(k)]: first position of [k], [ValueError] when absent. *)
Fixpoint list_index (l : list string) (k : string) : result nat :=
  match l with
  | [] => Raise (ValueError "not in list")
  | x :: rest =>
      if decide (x = k) then Ok O
      else let* i := list_index rest k in Ok (S i)
  end.

(** ** External collaborators *)

(** A value network: an architecture applied to its parameter vector.
    [net(StateInput(state)).q_values] is [call net state]. *)
Record Network : Type := mkNetwork {
  forward : list R -> Tensor -> Tensor;
  parameters : list R
}.

Definition call (net : Network) (state : Tensor) : Tensor :=
  forward net (parameters net) state.

Definition set_parameters (net : Network) (ps : list R) : Network :=
  mkNetwork (forward net) ps.

(** The optimizer interface: built from a parameter set, a learning rate and
    an optional weight decay; one update step from the gradients. *)
Class Optimizer : Type := {
  opt_state : Type;
  optimizer_func : list R -> R -> option R -> opt_state;
  optimizer_step : opt_state -> list R -> list R -> opt_state * list R
}.

(** [loss.backward()]: the gradient of a scalar function of the parameters. *)
Class Autograd : Type := {
  grad : (list R -> R) -> list R -> list R
}.

(** [F.mse_loss(a, b)]: the mean of the squared differences. *)
Definition mse_loss (a b : Tensor) : R :=
  let sq := concat (zip_with (zip_with (fun x y => (x - y) * (x - y))) a b) in
  row_sum sq / INR (length sq).

(** A [batch x 1] tensor as a tensor of rows of width one. *)
Definition as_rows (c : Column) : Tensor := (fun x => [x]) <$> c.

(** ** Configuration and batches *)

(** The fields of [DiscreteActionModelParameters] the constructor reads. *)
Record DiscreteActionModelParameters : Type := {
  actions : option (list string);
  rainbow_double_q_learning : bool;
  training_minibatch_size : Z;
  training_optimizer : string;
  training_learning_rate : R;
  training_l2_decay : R;
  rl_reward_boost : option (list (string * R))
}.

(** The attributes that the inherited constructor [DQNTrainerBase.__init__]
    leaves on the trainer and that [train] and [calculate_cpes] read. *)
Record DQNTrainerBase : Type := {
  gamma : R;
  tau : R;
  reward_burnin : Z;
  maxq_learning : bool;
  rl_temperature : R;
  calc_cpe_in_training : bool;
  use_seq_num_diff_as_time_diff : bool;
  metrics_to_score : list string;
  minibatch : Z;
  q_network_loss : Tensor -> Tensor -> R;
  gradient_handler : option (list R -> list R)
}.

Definition set_minibatch (b : DQNTrainerBase) (n : Z) : DQNTrainerBase :=
  {| gamma := gamma b; tau := tau b; reward_burnin := reward_burnin b;
     maxq_learning := maxq_learning b; rl_temperature := rl_temperature b;
     calc_cpe_in_training := calc_cpe_in_training b;
     use_seq_num_diff_as_time_diff := use_seq_num_diff_as_time_diff b;
     metrics_to_score := metrics_to_score b; minibatch := n;
     q_network_loss := q_network_loss b;
     gradient_handler := gradient_handler b |}.

(** [training_batch.training_input] *)
Record DiscreteDqnInput : Type := {
  state : Tensor;
  action : Tensor;
  reward : Column;
  next_state : Tensor;
  next_action : Tensor;
  not_terminal : list bool;
  possible_actions_mask : Tensor;
  possible_next_actions_mask : list (list bool)
}.

(** [training_batch.extras] *)
Record ExtraData : Type := {
  action_probability : Column;
  metrics : option Tensor
}.

Record TrainingBatch : Type := {
  training_input : DiscreteDqnInput;
  extras : ExtraData
}.

(** The keyword arguments of [loss_reporter.report]. *)
Record Report : Type := {
  td_loss : R;
  reward_loss : option R;
  logged_actions : list nat;
  logged_propensities : Column;
  logged_rewards : Column;
  logged_values : option Tensor;
  model_propensities : option Tensor;
  model_rewards : option Tensor;
  model_values : Tensor;
  model_values_on_logged_actions : option Tensor;
  model_action_idxs : list nat
}.

(** ** Helpers inherited from the base class and the softmax utility *)

(** Modelled from the spec: [DQNTrainerBase.boost_rewards], whose code is in
    dqn_trainer_base.py.  Section 4.1: given the raw per-sample reward and
    the one-hot action taken, returns [reward + boost[action]]; the boost of
    a sample is the boost vector times its one-hot action, "all other
    entries are zero for a given sample" (section 3). *)
Definition boost_rewards (reward_boosts : list R)
    (rewards : Column) (acts : Tensor) : Column :=
  zip_with (fun r a => r + dot a reward_boosts) rewards acts.

(** The greatest online value among the entries the mask allows, with its
    position; [None] when the mask allows no entry. *)
Fixpoint masked_best (cur : option (nat * R)) (i : nat)
    (vals mask : list R) : option (nat * R) :=
  match vals, mask with
  | v :: vals', m :: mask' =>
      let cur' :=
        if Req_dec_T m 0 then cur
        else match cur with
             | Some (_, b) => if Rlt_dec b v then Some (i, v) else cur
             | None => Some (i, v)
             end in
      masked_best cur' (S i) vals' mask'
  | _, _ => cur
  end.

Definition masked_argmax (vals mask : list R) : option nat :=
  fst <$> masked_best None O vals mask.

(** Modelled from the spec: one row of
    [DQNTrainerBase.get_max_q_values_with_target], whose code is in
    dqn_trainer_base.py.  Section 4.2, max-action mode: restrict the values
    to the entries allowed by the validity mask, pick the maximizing index
    from the online estimates (double-Q, which section 2 calls optional:
    without it the index maximizes the target estimates), read the value at
    that index from the target estimates.  A row with no valid action is a
    precondition violation. *)
Definition select_row (double_q : bool) (q q_target mask : list R)
  : result (R * nat) :=
  match masked_argmax (if double_q then q else q_target) mask with
  | None => Raise PreconditionViolation
  | Some i =>
      match q_target !! i with
      | Some v => Ok (v, i)
      | None => Raise IndexError
      end
  end.

Fixpoint select_rows (double_q : bool) (q q_target mask : Tensor)
  : result (list (R * nat)) :=
  match q, q_target, mask with
  | r :: q', rt :: q_target', m :: mask' =>
      let* s := select_row double_q r rt m in
      let* ss := select_rows double_q q' q_target' mask' in
      Ok (s :: ss)
  | _, _, _ => Ok []
  end.

(** Modelled from the spec: [DQNTrainerBase.get_max_q_values_with_target]
    on a batch; returns the value column and the index column. *)
Definition get_max_q_values_with_target (double_q : bool)
    (q_values q_values_target mask : Tensor) : result (Column * list nat) :=
  let* ss := select_rows double_q q_values q_values_target mask in
  Ok (fst <$> ss, snd <$> ss).

(** Modelled from the spec: [DQNTrainerBase.get_max_q_values], whose code is
    in dqn_trainer_base.py: the plain max-Q selection, which is the target
    selector with the online and target value vectors set equal
    (section 8). *)
Definition get_max_q_values (double_q : bool) (q_values mask : Tensor)
  : result (Column * list nat) :=
  get_max_q_values_with_target double_q q_values q_values mask.

(** Modelled from the spec: [DQNTrainerBase._soft_update], whose code is in
    the base trainer.  Section 4.4, step 4:
    [target_param = target_param*(1-tau) + online_param*tau], parameter by
    parameter. *)
Definition _soft_update (network target_network : Network) (tau' : R)
  : Network :=
  set_parameters target_network
    (zip_with (fun t_param param => t_param * (1 - tau') + param * tau')
       (parameters target_network) (parameters network)).

(** Modelled from the spec: [ml.rl.caffe_utils.masked_softmax], whose code is
    not in this file.  Sections 4.5 (step 4) and 6: a temperature-scaled
    normalized exponential over the valid entries only, zero probability
    mass on the invalid entries. *)
Definition masked_exp (temperature : R) (x m : R) : R :=
  if Req_dec_T m 0 then 0 else exp (x / temperature).

Definition masked_softmax_row (temperature : R) (x mask : list R) : list R :=
  let e := zip_with (masked_exp temperature) x mask in
  (fun v => v / row_sum e) <$> e.

Definition masked_softmax (x mask : Tensor) (temperature : R) : Tensor :=
  zip_with (masked_softmax_row temperature) x mask.

(** The sum of a propensity row over the valid-action subset of its mask. *)
Definition valid_sum (p mask : list R) : R :=
  row_sum (zip_with (fun v m => if Req_dec_T m 0 then 0 else v) p mask).

(** ** The trainer *)

Section Trainer.
Context {optimizer : Optimizer} {autograd : Autograd}.

(** [TrainingDataPage] and its conversion live in training_data_page.py. *)
Variable TrainingDataPage : Type.
Variable as_discrete_sarsa_training_batch : TrainingDataPage -> TrainingBatch.

(** [DQNTrainerBase.__init__(self, parameters, use_gpu, metrics_to_score,
    gradient_handler, actions)], in dqn_trainer_base.py. *)
Variable base_init :
  DiscreteActionModelParameters -> bool -> option (list string) ->
  option (list R -> list R) -> option (list string) -> DQNTrainerBase.

(** The attributes of a [_DQNTrainer] object.  An attribute the
    constructor does not set is [None]. *)
Record _DQNTrainer : Type := {
  super : DQNTrainerBase;
  double_q_learning : bool;
  minibatch_size : Z;
  _actions : list string;
  q_network : Network;
  q_network_target : Network;
  q_network_optimizer : opt_state;
  reward_network : option Network;
  reward_network_optimizer : option opt_state;
  q_network_cpe : option Network;
  q_network_cpe_target : option Network;
  q_network_cpe_optimizer : option opt_state;
  reward_idx_offsets : option (list nat);
  reward_boosts : list R;
  all_action_scores : option Tensor;
  loss : option R
}.

(** Reading an attribute of [self]. *)
Definition getattr {A} (name : string) (o : option A) : result A :=
  match o with
  | Some a => Ok a
  | None => Raise (AttributeError name)
  end.

Definition num_actions (self : _DQNTrainer) : nat := length (_actions self).

(** Lines 72-76: the boost vector, filled from the configured mapping. *)
Fixpoint fill_reward_boosts (acts : list string) (boost : list (string * R))
    (rb : list R) : result (list R) :=
  match boost with
  | [] => Ok rb
  | (k, v) :: rest =>
      let* i := list_index acts k in
      fill_reward_boosts acts rest (<[i := v]> rb)
  end.

(** Lines 53-70: the CPE attributes. *)
Definition init_cpe (base : DQNTrainerBase) (acts : list string) (lr : R)
    (reward_network0 q_network_cpe0 q_network_cpe_target0 : option Network)
  : result (option Network * option opt_state * option Network *
            option Network * option opt_state * option (list nat)) :=
  if calc_cpe_in_training base then
    match reward_network0 with
    | None => Raise (AssertionError "reward_network is required for CPE")
    | Some rn =>
        let r_opt := optimizer_func (parameters rn) lr None in
        match q_network_cpe0, q_network_cpe_target0 with
        | Some qc, Some qct =>
            let c_opt := optimizer_func (parameters qc) lr None in
            let num_output_nodes :=
              (length (metrics_to_score base) * length acts)%nat in
            let* offs := arange num_output_nodes (length acts) in
            Ok (Some rn, Some r_opt, Some qc, Some qct, Some c_opt, Some offs)
        | _, _ =>
            Raise (AssertionError
              "q_network_cpe and q_network_cpe_target are required for CPE")
        end
    end
  else Ok (None, None, None, None, None, None).

Definition __init__ (q_network0 q_network_target0 : Network)
    (reward_network0 : option Network)
    (params : DiscreteActionModelParameters) (use_gpu : bool)
    (q_network_cpe0 q_network_cpe_target0 : option Network)
    (metrics_to_score0 : option (list string)) : result _DQNTrainer :=
  let acts := default [] (actions params) in
  let base :=
    base_init params use_gpu metrics_to_score0 None (actions params) in
  let lr := training_learning_rate params in
  let q_opt :=
    optimizer_func (parameters q_network0) lr
      (Some (training_l2_decay params)) in
  let* (rn, r_opt, qc, qct, c_opt, offs) :=
    init_cpe base acts lr reward_network0 q_network_cpe0
      q_network_cpe_target0 in
  let* boosts :=
    match rl_reward_boost params with
    | Some boost => fill_reward_boosts acts boost (replicate (length acts) 0)
    | None => Ok (replicate (length acts) 0)
    end in
  Ok {| super := base;
        double_q_learning := rainbow_double_q_learning params;
        minibatch_size := training_minibatch_size params;
        _actions := acts;
        q_network := q_network0;
        q_network_target := q_network_target0;
        q_network_optimizer := q_opt;
        reward_network := rn;
        reward_network_optimizer := r_opt;
        q_network_cpe := qc;
        q_network_cpe_target := qct;
        q_network_cpe_optimizer := c_opt;
        reward_idx_offsets := offs;
        reward_boosts := boosts;
        all_action_scores := None;
        loss := None |}.

(** Lines 82-90. *)
Definition get_detached_q_values (self : _DQNTrainer) (st : Tensor)
  : Tensor * Tensor :=
  (call (q_network self) st, call (q_network_target self) st).

(** Lines 152-157 and 243-248: the rate of the soft update. *)
Definition update_rate (base : DQNTrainerBase) : R :=
  if (minibatch base <? reward_burnin base)%Z then 1 else tau base.

(** The loss of a gathered estimate, as a function of the parameters. *)
Definition gathered_loss (lossf : Tensor -> Tensor -> R)
    (net : Network) (states : Tensor) (offsets idxs : list nat)
    (target : Tensor) (theta : list R) : R :=
  match gather_offsets (forward net theta states) offsets idxs with
  | Ok est => lossf est target
  | Raise _ => 0
  end.

(** The values of the local variables of [calculate_cpes] that the
    statements below refer to. *)
Record CpeLocals : Type := {
  metrics_reward_concat_real_vals : Tensor;
  reward_estimates : Tensor;
  metric_target_q_values : Tensor;
  max_q_values_metrics : Tensor;
  target_metric_q_values : Tensor;
  cpe_mask : Tensor
}.

(** Lines 188-264.  Returns the trainer after the call, the triple
    [(reward_loss, model_rewards, model_propensities)] and, when CPE is
    enabled, the local variables. *)
Definition calculate_cpes (self : _DQNTrainer) (training_batch : TrainingBatch)
    (states : Tensor) (logged_action_idxs max_q_action_idxs : list nat)
    (discount_tensor not_done_mask : Column)
  : result (_DQNTrainer * (option R * option Tensor * option Tensor)
            * option CpeLocals) :=
  if negb (calc_cpe_in_training (super self)) then
    Ok (self, (None, None, None), None)
  else
    let real_vals :=
      match metrics (extras training_batch) with
      | None => as_rows (reward (training_input training_batch))
      | Some ms =>
          zip_with (fun r m => r :: m)
            (reward (training_input training_batch)) ms
      end in
    (* reward network *)
    let* rnet := getattr "reward_network" (reward_network self) in
    let estimates := call rnet states in
    let* offsets := getattr "reward_idx_offsets" (reward_idx_offsets self) in
    let* estimates_logged := gather_offsets estimates offsets logged_action_idxs in
    let r_loss := mse_loss estimates_logged real_vals in
    let* r_opt := getattr "reward_network_optimizer" (reward_network_optimizer self) in
    let r_grads :=
      grad (gathered_loss mse_loss rnet states offsets logged_action_idxs
              real_vals) (parameters rnet) in
    let '(r_opt', r_params) := optimizer_step r_opt (parameters rnet) r_grads in
    let rnet' := set_parameters rnet r_params in
    (* CPE q-network *)
    let* qc := getattr "q_network_cpe" (q_network_cpe self) in
    let* metric_q_values :=
      gather_offsets (call qc states) offsets logged_action_idxs in
    let* qct := getattr "q_network_cpe_target" (q_network_cpe_target self) in
    let metric_target := call qct states in
    let* max_q_metrics := gather_offsets metric_target offsets max_q_action_idxs in
    let filtered :=
      zip_with (fun row d => (fun v => v * d) <$> row)
        max_q_metrics not_done_mask in
    let target_metric :=
      if (minibatch (super self) <? reward_burnin (super self))%Z
      then real_vals
      else zip_with (zip_with Rplus) real_vals
             (zip_with (fun g row => Rmult g <$> row)
                discount_tensor filtered) in
    let c_grads :=
      grad (gathered_loss (q_network_loss (super self)) qc states offsets
              logged_action_idxs target_metric) (parameters qc) in
    let* c_opt :=
      getattr "q_network_cpe_optimizer" (q_network_cpe_optimizer self) in
    let '(c_opt', c_params) := optimizer_step c_opt (parameters qc) c_grads in
    let qc' := set_parameters qc c_params in
    let qct' := _soft_update qc' qct (update_rate (super self)) in
    let* scores := getattr "all_action_scores" (all_action_scores self) in
    let mask :=
      if maxq_learning (super self)
      then possible_actions_mask (training_input training_batch)
      else action (training_input training_batch) in
    let propensities :=
      masked_softmax scores mask (rl_temperature (super self)) in
    let* off0 := match offsets !! O with
           | Some o => Ok o
           | None => Raise IndexError
           end in
    let* rewards_model :=
      rmapM (fun row => gather_row row (seq off0 (num_actions self)))
        estimates in
    Ok ({| super := super self;
           double_q_learning := double_q_learning self;
           minibatch_size := minibatch_size self;
           _actions := _actions self;
           q_network := q_network self;
           q_network_target := q_network_target self;
           q_network_optimizer := q_network_optimizer self;
           reward_network := Some rnet';
           reward_network_optimizer := Some r_opt';
           q_network_cpe := Some qc';
           q_network_cpe_target := Some qct';
           q_network_cpe_optimizer := Some c_opt';
           reward_idx_offsets := reward_idx_offsets self;
           reward_boosts := reward_boosts self;
           all_action_scores := all_action_scores self;
           loss := loss self |},
        (Some r_loss, Some rewards_model, Some propensities),
        Some {| metrics_reward_concat_real_vals := real_vals;
                reward_estimates := estimates;
                metric_target_q_values := metric_target;
                max_q_values_metrics := max_q_metrics;
                target_metric_q_values := target_metric;
                cpe_mask := mask |}).

(** The argument of [train]: a raw page or a converted batch. *)
Inductive TrainInput : Type :=
| Page (p : TrainingDataPage)
| Batch (b : TrainingBatch).

(** The values of the local variables of [train] that the statements
    below refer to, and the warnings it logged. *)
Record TrainLocals : Type := {
  boosted_rewards : Column;
  next_q_values : Column;
  max_q_action_idxs : list nat;
  filtered_next_q_vals : Column;
  target_q_values : Column;
  all_q_values : Tensor;
  cpe_locals : option CpeLocals;
  warnings : list string
}.

(** Lines 92-186.  Returns the trainer after the step, the arguments of
    [loss_reporter.report] and the local variables. *)
Definition train (self : _DQNTrainer) (input : TrainInput)
  : result (_DQNTrainer * Report * TrainLocals) :=
  let training_batch :=
    match input with
    | Page p => as_discrete_sarsa_training_batch p
    | Batch b => b
    end in
  let learning_input := training_input training_batch in
  let boosted :=
    boost_rewards (reward_boosts self) (reward learning_input)
      (action learning_input) in
  let base := set_minibatch (super self) (minibatch (super self) + 1)%Z in
  let rewards := boosted in
  let discount_tensor := full_like rewards (gamma base) in
  let not_done_mask : Column := b2R <$> not_terminal learning_input in
  let warns :=
    if use_seq_num_diff_as_time_diff base
    then ["_dqn_trainer has not implemented use_seq_num_diff_as_time_diff feature"%string]
    else [] in
  let '(all_next_q, all_next_q_target) :=
    get_detached_q_values self (next_state learning_input) in
  let* (next_q, max_idxs) :=
    (if maxq_learning base
     then get_max_q_values_with_target (double_q_learning self)
            all_next_q all_next_q_target
            (fmap (M:=list) b2R <$> possible_next_actions_mask learning_input)
     else get_max_q_values_with_target (double_q_learning self)
            all_next_q all_next_q_target (next_action learning_input)) in
  let filtered := zip_with Rmult next_q not_done_mask in
  let target :=
    if (minibatch base <? reward_burnin base)%Z
    then rewards
    else zip_with Rplus rewards (zip_with Rmult discount_tensor filtered) in
  (* Q-value of the action taken *)
  let current_state := state learning_input in
  let all_q := call (q_network self) current_state in
  let q_vals := zip_with dot all_q (action learning_input) in
  let lossv := q_network_loss base (as_rows q_vals) (as_rows target) in
  let grads :=
    grad (fun theta =>
            q_network_loss base
              (as_rows (zip_with dot
                          (forward (q_network self) theta current_state)
                          (action learning_input)))
              (as_rows target))
      (parameters (q_network self)) in
  let grads :=
    match gradient_handler base with
    | Some handler => handler grads
    | None => grads
    end in
  let '(q_opt, q_params) :=
    optimizer_step (q_network_optimizer self)
      (parameters (q_network self)) grads in
  let qnet := set_parameters (q_network self) q_params in
  let qtarget := _soft_update qnet (q_network_target self) (update_rate base) in
  let logged_action_idxs := argmax <$> action learning_input in
  let self1 :=
    {| super := base;
       double_q_learning := double_q_learning self;
       minibatch_size := minibatch_size self;
       _actions := _actions self;
       q_network := qnet;
       q_network_target := qtarget;
       q_network_optimizer := q_opt;
       reward_network := reward_network self;
       reward_network_optimizer := reward_network_optimizer self;
       q_network_cpe := q_network_cpe self;
       q_network_cpe_target := q_network_cpe_target self;
       q_network_cpe_optimizer := q_network_cpe_optimizer self;
       reward_idx_offsets := reward_idx_offsets self;
       reward_boosts := reward_boosts self;
       all_action_scores := Some all_q;
       loss := Some lossv |} in
  let* (self2, (r_loss, m_rewards, m_propensities), cl) :=
    calculate_cpes self1 training_batch current_state logged_action_idxs
      max_idxs discount_tensor not_done_mask in
  let* td := getattr "loss" (loss self2) in
  let* scores := getattr "all_action_scores" (all_action_scores self2) in
  let* (_, model_idxs) :=
    get_max_q_values (double_q_learning self2) scores
      (if maxq_learning (super self2)
       then possible_actions_mask learning_input
       else action learning_input) in
  Ok (self2,
      {| td_loss := td;
         reward_loss := r_loss;
         logged_actions := logged_action_idxs;
         logged_propensities := action_probability (extras training_batch);
         logged_rewards := rewards;
         logged_values := None;
         model_propensities := m_propensities;
         model_rewards := m_rewards;
         model_values := scores;
         model_values_on_logged_actions := None;
         model_action_idxs := model_idxs |},
      {| boosted_rewards := boosted;
         next_q_values := next_q;
         max_q_action_idxs := max_idxs;
         filtered_next_q_vals := filtered;
         target_q_values := target;
         all_q_values := all_q;
         cpe_locals := cl;
         warnings := warns |}).

(** The batch a call of [train] works on (lines 93-94). *)
Definition batch_of (input : TrainInput) : TrainingBatch :=
  match input with
  | Page p => as_discrete_sarsa_training_batch p
  | Batch b => b
  end.

End Trainer.

Arguments Page {TrainingDataPage} p.
Arguments Batch {TrainingDataPage} b.
Arguments train {optimizer autograd TrainingDataPage}
  as_discrete_sarsa_training_batch self input.
Arguments batch_of {TrainingDataPage} as_discrete_sarsa_training_batch input.

(** [train] called on a sequence of batches, one step after the other. *)
Fixpoint train_all {optimizer : Optimizer} {autograd : Autograd}
    {TrainingDataPage : Type}
    (as_discrete_sarsa_training_batch : TrainingDataPage -> TrainingBatch)
    (self : _DQNTrainer) (inputs : list (TrainInput TrainingDataPage))
  : result _DQNTrainer :=
  match inputs with
  | [] => Ok self
  | input :: rest =>
      let* (self', _, _) :=
        train as_discrete_sarsa_training_batch self input in
      train_all as_discrete_sarsa_training_batch self' rest
  end.

(** An input with its page, if it is one, converted beforehand. *)
Definition converted {TrainingDataPage : Type}
    (as_discrete_sarsa_training_batch : TrainingDataPage -> TrainingBatch)
    (input : TrainInput TrainingDataPage) : TrainInput TrainingDataPage :=
  Batch (batch_of as_discrete_sarsa_training_batch input).

(** The attributes of the CPE subsystem are set whenever CPE is enabled. *)
Definition cpe_ready {optimizer : Optimizer} (self : _DQNTrainer) : Prop :=
  calc_cpe_in_training (super self) = true ->
  is_Some (reward_network self) /\ is_Some (reward_network_optimizer self) /\
  is_Some (q_network_cpe self) /\ is_Some (q_network_cpe_target self) /\
  is_Some (q_network_cpe_optimizer self) /\ is_Some (reward_idx_offsets self).

(** The boost the configured mapping assigns to an action name (its last
    entry for the name), 0 when it has none. *)
Definition configured_boost (boost : option (list (string * R)))
    (name : string) : R :=
  foldl (fun acc kv => if decide (fst kv = name) then snd kv else acc) 0
    (default [] boost).

(** ** A fixture: three actions, bias-only networks, gradient descent *)

Module Fixture.

(** Plain gradient descent; the optimizer state is the learning rate. *)
Definition sgd : Optimizer :=
  {| opt_state := R;
     optimizer_func := fun _ lr _ => lr;
     optimizer_step := fun lr ps gs =>
       (lr, zip_with (fun p g => p - lr * g) ps gs) |}.

(** Central differences, the exact gradient of a quadratic loss. *)
Definition central_differences : Autograd :=
  {| grad := fun f theta =>
       (fun i => (f (alter (fun x => x + 1) i theta)
                  - f (alter (fun x => x - 1) i theta)) / 2)
         <$> seq 0 (length theta) |}.

(** A network whose output row is its parameter vector. *)
Definition bias_network (ps : list R) : Network :=
  {| forward := fun theta states => (fun _ => theta) <$> states;
     parameters := ps |}.

Definition base (cpe maxq : bool) (burnin : Z) : DQNTrainerBase :=
  {| gamma := 9 / 10;
     tau := 1 / 10;
     reward_burnin := burnin;
     maxq_learning := maxq;
     rl_temperature := 1;
     calc_cpe_in_training := cpe;
     use_seq_num_diff_as_time_diff := false;
     metrics_to_score := ["reward"%string];
     minibatch := 0;
     q_network_loss := mse_loss;
     gradient_handler := None |}.

Definition base_init (cpe maxq : bool) (burnin : Z)
    (_ : DiscreteActionModelParameters) (_ : bool)
    (_ : option (list string)) (_ : option (list R -> list R))
    (_ : option (list string)) : DQNTrainerBase :=
  base cpe maxq burnin.

Definition params : DiscreteActionModelParameters :=
  {| actions := Some ["A"; "B"; "C"]%string;
     rainbow_double_q_learning := true;
     training_minibatch_size := 1;
     training_optimizer := "SGD";
     training_learning_rate := 1;
     training_l2_decay := 0;
     rl_reward_boost := Some [("B"%string, 2)] |}.

(** The same parameters with a boost for an action outside the action set. *)
Definition params_with_unknown_boost : DiscreteActionModelParameters :=
  {| actions := Some ["A"; "B"; "C"]%string;
     rainbow_double_q_learning := true;
     training_minibatch_size := 1;
     training_optimizer := "SGD";
     training_learning_rate := 1;
     training_l2_decay := 0;
     rl_reward_boost := Some [("B"%string, 2); ("D"%string, 1)] |}.

(** One transition: action [k] taken, reward 1, next action A. *)
Definition batch_taking (k : nat) : TrainingBatch :=
  {| training_input :=
       {| state := [[0]];
          action := [one_hot 3 k];
          reward := [1];
          next_state := [[0]];
          next_action := [one_hot 3 0];
          not_terminal := [true];
          possible_actions_mask := [[1; 1; 1]];
          possible_next_actions_mask := [[true; true; true]] |};
     extras := {| action_probability := [1 / 3]; metrics := None |} |}.

Definition batch : TrainingBatch := batch_taking 1.

(** A transition whose next-action row selects no action. *)
Definition batch_without_next_action : TrainingBatch :=
  {| training_input :=
       {| state := [[0]];
          action := [one_hot 3 1];
          reward := [1];
          next_state := [[0]];
          next_action := [[0; 0; 0]];
          not_terminal := [true];
          possible_actions_mask := [[1; 1; 1]];
          possible_next_actions_mask := [[false; false; false]] |};
     extras := {| action_probability := [1 / 3]; metrics := None |} |}.

(** A page is a batch already; the conversion returns it. *)
Definition as_batch (b : TrainingBatch) : TrainingBatch := b.

Definition rate_one : @opt_state sgd := 1.

(** The trainer the constructor builds from [params], written out. *)
Definition trainer (cpe maxq : bool) (burnin : Z) : _DQNTrainer (optimizer := sgd) :=
  {| super := base cpe maxq burnin;
     double_q_learning := true;
     minibatch_size := 1;
     _actions := ["A"; "B"; "C"]%string;
     q_network := bias_network [0; 0; 0];
     q_network_target := bias_network [1; 2; 3];
     q_network_optimizer := rate_one;
     reward_network := if cpe then Some (bias_network [0; 0; 0]) else None;
     reward_network_optimizer := if cpe then Some rate_one else None;
     q_network_cpe := if cpe then Some (bias_network [0; 0; 0]) else None;
     q_network_cpe_target :=
       if cpe then Some (bias_network [4; 5; 6]) else None;
     q_network_cpe_optimizer := if cpe then Some rate_one else None;
     reward_idx_offsets := if cpe then Some [0%nat] else None;
     reward_boosts := [0; 2; 0];
     all_action_scores := None;
     loss := None |}.

(** One training step of the fixture trainer on a batch. *)
Definition run (cpe maxq : bool) (burnin : Z) (b : TrainingBatch)
  : result (_DQNTrainer * Report * TrainLocals) :=
  train (optimizer := sgd) (autograd := central_differences) as_batch
    (trainer cpe maxq burnin) (Batch b).

End Fixture.

(** The base attributes with another value of the flag
    [use_seq_num_diff_as_time_diff]. *)
Definition set_use_seq_num_diff (b : DQNTrainerBase) (flag : bool)
  : DQNTrainerBase :=
  {| gamma := gamma b; tau := tau b; reward_burnin := reward_burnin b;
     maxq_learning := maxq_learning b; rl_temperature := rl_temperature b;
     calc_cpe_in_training := calc_cpe_in_training b;
     use_seq_num_diff_as_time_diff := flag;
     metrics_to_score := metrics_to_score b; minibatch := minibatch b;
     q_network_loss := q_network_loss b;
     gradient_handler := gradient_handler b |}.

(** A trainer with other base attributes. *)
Definition with_super {optimizer : Optimizer} (self : _DQNTrainer)
    (base : DQNTrainerBase) : _DQNTrainer :=
  {| super := base;
     double_q_learning := double_q_learning self;
     minibatch_size := minibatch_size self;
     _actions := _actions self;
     q_network := q_network self;
     q_network_target := q_network_target self;
     q_network_optimizer := q_network_optimizer self;
     reward_network := reward_network self;
     reward_network_optimizer := reward_network_optimizer self;
     q_network_cpe := q_network_cpe self;
     q_network_cpe_target := q_network_cpe_target self;
     q_network_cpe_optimizer := q_network_cpe_optimizer self;
     reward_idx_offsets := reward_idx_offsets self;
     reward_boosts := reward_boosts self;
     all_action_scores := all_action_scores self;
     loss := loss self |}.

(** The local variables of a step with other logged warnings. *)
Definition set_warnings (loc : TrainLocals) (w : list string) : TrainLocals :=
  {| boosted_rewards := boosted_rewards loc;
     next_q_values := next_q_values loc;
     max_q_action_idxs := max_q_action_idxs loc;
     filtered_next_q_vals := filtered_next_q_vals loc;
     target_q_values := target_q_values loc;
     all_q_values := all_q_values loc;
     cpe_locals := cpe_locals loc;
     warnings := w |}.

(** ** Variants of the fixture trainer *)

Module Variant.

(** The fixture trainer, CPE enabled and on-policy, with other parameters of
    the primary network. *)
Definition with_q_network (ps : list R) : _DQNTrainer (optimizer := Fixture.sgd) :=
  {| super := Fixture.base true false 0;
     double_q_learning := true;
     minibatch_size := 1;
     _actions := ["A"; "B"; "C"]%string;
     q_network := Fixture.bias_network ps;
     q_network_target := Fixture.bias_network [1; 2; 3];
     q_network_optimizer := Fixture.rate_one;
     reward_network := Some (Fixture.bias_network [0; 0; 0]);
     reward_network_optimizer := Some Fixture.rate_one;
     q_network_cpe := Some (Fixture.bias_network [0; 0; 0]);
     q_network_cpe_target := Some (Fixture.bias_network [4; 5; 6]);
     q_network_cpe_optimizer := Some Fixture.rate_one;
     reward_idx_offsets := Some [0%nat];
     reward_boosts := [0; 2; 0];
     all_action_scores := None;
     loss := None |}.

(** The same trainer with other parameters of the reward network and of the
    CPE target network. *)
Definition with_cpe_networks (rp cp : list R)
  : _DQNTrainer (optimizer := Fixture.sgd) :=
  {| super := Fixture.base true false 0;
     double_q_learning := true;
     minibatch_size := 1;
     _actions := ["A"; "B"; "C"]%string;
     q_network := Fixture.bias_network [0; 0; 0];
     q_network_target := Fixture.bias_network [1; 2; 3];
     q_network_optimizer := Fixture.rate_one;
     reward_network := Some (Fixture.bias_network rp);
     reward_network_optimizer := Some Fixture.rate_one;
     q_network_cpe := Some (Fixture.bias_network [0; 0; 0]);
     q_network_cpe_target := Some (Fixture.bias_network cp);
     q_network_cpe_optimizer := Some Fixture.rate_one;
     reward_idx_offsets := Some [0%nat];
     reward_boosts := [0; 2; 0];
     all_action_scores := None;
     loss := None |}.

Definition step (self : _DQNTrainer (optimizer := Fixture.sgd))
  : result (_DQNTrainer * Report * TrainLocals) :=
  train (optimizer := Fixture.sgd) (autograd := Fixture.central_differences)
    Fixture.as_batch self (Batch Fixture.batch).

End Variant.

(** ** A fixture with two metrics *)

Module TwoMetrics.

Definition base (burnin : Z) : DQNTrainerBase :=
  {| gamma := 9 / 10;
     tau := 1 / 10;
     reward_burnin := burnin;
     maxq_learning := false;
     rl_temperature := 1;
     calc_cpe_in_training := true;
     use_seq_num_diff_as_time_diff := false;
     metrics_to_score := ["reward"; "clicks"]%string;
     minibatch := 0;
     q_network_loss := mse_loss;
     gradient_handler := None |}.

(** The fixture trainer with two blocks of three estimates in each CPE
    network. *)
Definition trainer (burnin : Z) : _DQNTrainer (optimizer := Fixture.sgd) :=
  {| super := base burnin;
     double_q_learning := true;
     minibatch_size := 1;
     _actions := ["A"; "B"; "C"]%string;
     q_network := Fixture.bias_network [0; 0; 0];
     q_network_target := Fixture.bias_network [1; 2; 3];
     q_network_optimizer := Fixture.rate_one;
     reward_network := Some (Fixture.bias_network [0; 0; 0; 0; 0; 0]);
     reward_network_optimizer := Some Fixture.rate_one;
     q_network_cpe := Some (Fixture.bias_network [0; 0; 0; 0; 0; 0]);
     q_network_cpe_target := Some (Fixture.bias_network [4; 5; 6; 7; 8; 9]);
     q_network_cpe_optimizer := Some Fixture.rate_one;
     reward_idx_offsets := Some [0%nat; 3%nat];
     reward_boosts := [0; 2; 0];
     all_action_scores := None;
     loss := None |}.

(** The transition of the fixture with one auxiliary metric, of value 5. *)
Definition batch : TrainingBatch :=
  {| training_input := training_input Fixture.batch;
     extras := {| action_probability := [1 / 3]; metrics := Some [[5]] |} |}.

Definition run (burnin : Z)
  : result (_DQNTrainer * Report * TrainLocals) :=
  train (optimizer := Fixture.sgd) (autograd := Fixture.central_differences)
    Fixture.as_batch (trainer burnin) (Batch batch).

End TwoMetrics.

(** Deciding the comparisons of concrete reals, and unfolding a run. *)
Ltac decide_reals :=
  repeat match goal with
  | |- context [Req_dec_T ?a ?b] =>
      destruct (Req_dec_T a b); [try lra | try lra]
  | |- context [Rlt_dec ?a ?b] =>
      destruct (Rlt_dec a b); [try lra | try lra]
  end.

Ltac crunch :=
  cbn -[Rplus Rmult Rminus Rdiv Rlt_dec Req_dec_T exp INR mse_loss
        masked_softmax Z.ltb Z.add].

(** ** Rows: one-hot vectors, inner products and maxima *)

Section Rows.

Lemma row_sum_zeros (q : list R) (n : nat) :
  row_sum (zip_with Rmult q (replicate n 0)) = 0.
Proof.
  revert q; induction n as [|n IH]; intros [|x q]; simpl; try reflexivity.
  rewrite IH. lra.
Qed.

Lemma row_sum_zeros_l (b : list R) (n : nat) :
  row_sum (zip_with Rmult (replicate n 0) b) = 0.
Proof.
  revert b; induction n as [|n IH]; intros [|x b]; simpl; try reflexivity.
  rewrite IH. lra.
Qed.

Lemma dot_one_hot_r (q : list R) (n k : nat) (v : R) :
  (k < n)%nat -> q !! k = Some v -> dot q (one_hot n k) = v.
Proof.
  unfold dot. revert q k.
  induction n as [|n IH]; intros q k Hk Hq; [lia|].
  destruct q as [|x q]; [discriminate|].
  destruct k as [|k]; simpl in *.
  - injection Hq as ->.
    pose proof (row_sum_zeros q n) as Hz.
    rewrite Hz. lra.
  - pose proof (IH q k ltac:(lia) Hq) as Hr.
    rewrite Hr. lra.
Qed.

Lemma dot_one_hot_l (b : list R) (n k : nat) (v : R) :
  (k < n)%nat -> b !! k = Some v -> dot (one_hot n k) b = v.
Proof.
  unfold dot. revert b k.
  induction n as [|n IH]; intros b k Hk Hb; [lia|].
  destruct b as [|x b]; [discriminate|].
  destruct k as [|k]; simpl in *.
  - injection Hb as ->.
    pose proof (row_sum_zeros_l b n) as Hz.
    rewrite Hz. lra.
  - pose proof (IH b k ltac:(lia) Hb) as Hr.
    rewrite Hr. lra.
Qed.

Lemma argmax_from_zeros (best : R) (b i n : nat) :
  0 <= best -> argmax_from best b i (replicate n 0) = b.
Proof.
  intros Hbest. revert i; induction n as [|n IH]; intros i; simpl.
  - reflexivity.
  - destruct (Rlt_dec best 0) as [Hlt|_]; [lra|]. apply IH.
Qed.

Lemma argmax_from_one_hot (b i n k : nat) :
  (k < n)%nat -> argmax_from 0 b i (one_hot n k) = (i + k)%nat.
Proof.
  revert b i k; induction n as [|n IH]; intros b i k Hk; [lia|].
  destruct k as [|k]; simpl.
  - destruct (Rlt_dec 0 1) as [_|Hn]; [|lra].
    rewrite argmax_from_zeros by lra. lia.
  - destruct (Rlt_dec 0 0) as [Hlt|_]; [lra|].
    rewrite IH by lia. lia.
Qed.

Lemma argmax_one_hot (n k : nat) :
  (k < n)%nat -> argmax (one_hot n k) = k.
Proof.
  intros Hk. destruct n as [|n]; [lia|].
  destruct k as [|k]; simpl.
  - apply argmax_from_zeros. lra.
  - rewrite argmax_from_one_hot by lia. lia.
Qed.

Lemma masked_best_zeros (cur : option (nat * R)) (i n : nat) (vals : list R) :
  masked_best cur i vals (replicate n 0) = cur.
Proof.
  revert cur i vals; induction n as [|n IH]; intros cur i [|v vals]; simpl;
    try reflexivity.
  destruct (Req_dec_T 0 0) as [_|Hn]; [apply IH | congruence].
Qed.

Lemma masked_best_one_hot (i n k : nat) (vals : list R) (v : R) :
  (k < n)%nat -> vals !! k = Some v ->
  masked_best None i vals (one_hot n k) = Some ((i + k)%nat, v).
Proof.
  revert i k vals; induction n as [|n IH]; intros i k vals Hk Hv; [lia|].
  destruct vals as [|x vals]; [discriminate|].
  destruct k as [|k]; simpl in *.
  - injection Hv as ->.
    destruct (Req_dec_T 1 0) as [H10|_]; [lra|].
    rewrite masked_best_zeros. do 2 f_equal. lia.
  - destruct (Req_dec_T 0 0) as [_|Hn]; [|congruence].
    rewrite (IH (S i) k vals) by (lia || assumption).
    do 2 f_equal. lia.
Qed.

Lemma masked_argmax_one_hot (n k : nat) (vals : list R) :
  (k < n)%nat -> (k < length vals)%nat ->
  masked_argmax vals (one_hot n k) = Some k.
Proof.
  intros Hk Hlen. unfold masked_argmax.
  destruct (lookup_lt_is_Some_2 vals k Hlen) as [v Hv].
  rewrite (masked_best_one_hot 0 n k vals v) by assumption.
  reflexivity.
Qed.

End Rows.

(** ** What a successful call has computed *)

Section Inversion.
Context {optimizer : Optimizer} {autograd : Autograd}.
Variable TrainingDataPage : Type.
Variable as_batch : TrainingDataPage -> TrainingBatch.

Lemma rbind_Ok {A B} (m : result A) (k : A -> result B) (b : B) :
  rbind m k = Ok b -> exists a, m = Ok a /\ k a = Ok b.
Proof. destruct m as [a|e]; simpl; [eauto | discriminate]. Qed.

Lemma getattr_Ok {A} (name : string) (o : option A) (a : A) :
  getattr name o = Ok a -> o = Some a.
Proof. destruct o; simpl; congruence. Qed.

(** The attributes [calculate_cpes] never assigns. *)
Lemma calculate_cpes_frame (s s' : _DQNTrainer) tb st logged maxi disc nd res cl :
  calculate_cpes s tb st logged maxi disc nd = Ok (s', res, cl) ->
  super s' = super s /\ q_network s' = q_network s /\
  q_network_target s' = q_network_target s /\
  q_network_optimizer s' = q_network_optimizer s /\
  all_action_scores s' = all_action_scores s /\ loss s' = loss s /\
  reward_boosts s' = reward_boosts s /\ _actions s' = _actions s /\
  double_q_learning s' = double_q_learning s /\
  reward_idx_offsets s' = reward_idx_offsets s.
Proof.
  unfold calculate_cpes. intros H.
  destruct (calc_cpe_in_training (super s)); simpl in H.
  - apply rbind_Ok in H as (rnet & Hrnet & H).
    apply rbind_Ok in H as (offsets & Hoff & H).
    apply rbind_Ok in H as (est & Hest & H).
    apply rbind_Ok in H as (r_opt & Hropt & H).
    destruct (optimizer_step r_opt _ _) as [r_opt' r_params].
    apply rbind_Ok in H as (qc & Hqc & H).
    apply rbind_Ok in H as (mq & Hmq & H).
    apply rbind_Ok in H as (qct & Hqct & H).
    apply rbind_Ok in H as (maxm & Hmaxm & H).
    apply rbind_Ok in H as (c_opt & Hcopt & H).
    destruct (optimizer_step c_opt _ _) as [c_opt' c_params].
    apply rbind_Ok in H as (scores & Hscores & H).
    apply rbind_Ok in H as (off0 & Hoff0 & H).
    apply rbind_Ok in H as (rm & Hrm & H).
    injection H as <- <- <-. simpl.
    apply getattr_Ok in Hoff. rewrite Hoff. repeat split; reflexivity.
  - injection H as <- <- <-. repeat split; reflexivity.
Qed.

(** The CPE-enabled branch of [calculate_cpes], lines 200-264. *)
Lemma calculate_cpes_inv (s s' : _DQNTrainer) tb st logged maxi disc nd res cl :
  calc_cpe_in_training (super s) = true ->
  calculate_cpes s tb st logged maxi disc nd = Ok (s', res, cl) ->
  exists rnet offsets r_opt qc qct c_opt scores cl0 r_step c_step r_loss rm,
    reward_network s = Some rnet /\
    reward_idx_offsets s = Some offsets /\
    reward_network_optimizer s = Some r_opt /\
    q_network_cpe s = Some qc /\
    q_network_cpe_target s = Some qct /\
    q_network_cpe_optimizer s = Some c_opt /\
    all_action_scores s = Some scores /\
    cl = Some cl0 /\
    metrics_reward_concat_real_vals cl0 =
      match metrics (extras tb) with
      | None => as_rows (reward (training_input tb))
      | Some ms => zip_with (fun r m => r :: m) (reward (training_input tb)) ms
      end /\
    reward_estimates cl0 = call rnet st /\
    metric_target_q_values cl0 = call qct st /\
    gather_offsets (metric_target_q_values cl0) offsets maxi
      = Ok (max_q_values_metrics cl0) /\
    target_metric_q_values cl0 =
      (if (minibatch (super s) <? reward_burnin (super s))%Z
       then metrics_reward_concat_real_vals cl0
       else zip_with (zip_with Rplus) (metrics_reward_concat_real_vals cl0)
              (zip_with (fun g row => Rmult g <$> row) disc
                 (zip_with (fun row d => (fun v => v * d) <$> row)
                    (max_q_values_metrics cl0) nd))) /\
    cpe_mask cl0 =
      (if maxq_learning (super s)
       then possible_actions_mask (training_input tb)
       else action (training_input tb)) /\
    res = (Some r_loss, Some rm,
           Some (masked_softmax scores (cpe_mask cl0)
                   (rl_temperature (super s)))) /\
    reward_network s' = Some (set_parameters rnet (snd r_step)) /\
    reward_network_optimizer s' = Some (fst r_step) /\
    q_network_cpe s' = Some (set_parameters qc (snd c_step)) /\
    q_network_cpe_optimizer s' = Some (fst c_step) /\
    q_network_cpe_target s' =
      Some (_soft_update (set_parameters qc (snd c_step)) qct
              (update_rate (super s))).
Proof.
  unfold calculate_cpes. intros Hcpe H. rewrite Hcpe in H. simpl in H.
  apply rbind_Ok in H as (rnet & Hrnet & H).
  apply rbind_Ok in H as (offsets & Hoff & H).
  apply rbind_Ok in H as (est & Hest & H).
  apply rbind_Ok in H as (r_opt & Hropt & H).
  destruct (optimizer_step r_opt _ _) as [r_opt' r_params] eqn:Hrstep.
  apply rbind_Ok in H as (qc & Hqc & H).
  apply rbind_Ok in H as (mq & Hmq & H).
  apply rbind_Ok in H as (qct & Hqct & H).
  apply rbind_Ok in H as (maxm & Hmaxm & H).
  apply rbind_Ok in H as (c_opt & Hcopt & H).
  destruct (optimizer_step c_opt _ _) as [c_opt' c_params] eqn:Hcstep.
  apply rbind_Ok in H as (scores & Hscores & H).
  apply rbind_Ok in H as (off0 & Hoff0 & H).
  apply rbind_Ok in H as (rm & Hrm & H).
  injection H as <- <- <-.
  apply getattr_Ok in Hrnet, Hoff, Hropt, Hqc, Hqct, Hcopt, Hscores.
  eexists rnet, offsets, r_opt, qc, qct, c_opt, scores, _,
    (r_opt', r_params), (c_opt', c_params), _, rm.
  simpl. repeat (split; [first [eassumption | reflexivity]|]).
  reflexivity.
Qed.

(** The primary part of [train], lines 96-159, followed by the call of
    [calculate_cpes] on the trainer [self1] it leaves, and the report. *)
Lemma train_inv (self self' : _DQNTrainer)
    (input : TrainInput TrainingDataPage) (rep : Report) (loc : TrainLocals) :
  train as_batch self input = Ok (self', rep, loc) ->
  let tb := batch_of as_batch input in
  let li := training_input tb in
  let base := set_minibatch (super self) (minibatch (super self) + 1) in
  exists (self1 : _DQNTrainer) grads res scores,
    get_max_q_values_with_target (double_q_learning self)
      (call (q_network self) (next_state li))
      (call (q_network_target self) (next_state li))
      (if maxq_learning base
       then fmap (M:=list) b2R <$> possible_next_actions_mask li
       else next_action li)
      = Ok (next_q_values loc, max_q_action_idxs loc) /\
    boosted_rewards loc =
      boost_rewards (reward_boosts self) (reward li) (action li) /\
    filtered_next_q_vals loc =
      zip_with Rmult (next_q_values loc) (b2R <$> not_terminal li) /\
    target_q_values loc =
      (if (minibatch base <? reward_burnin base)%Z
       then boosted_rewards loc
       else zip_with Rplus (boosted_rewards loc)
              (zip_with Rmult (full_like (boosted_rewards loc) (gamma base))
                 (filtered_next_q_vals loc))) /\
    all_q_values loc = call (q_network self) (state li) /\
    grads =
      grad (fun theta =>
              q_network_loss base
                (as_rows (zip_with dot
                            (forward (q_network self) theta (state li))
                            (action li)))
                (as_rows (target_q_values loc)))
        (parameters (q_network self)) /\
    super self1 = base /\
    q_network self1 =
      set_parameters (q_network self)
        (snd (optimizer_step (q_network_optimizer self)
                (parameters (q_network self))
                (match gradient_handler base with
                 | Some handler => handler grads
                 | None => grads
                 end))) /\
    q_network_target self1 =
      _soft_update (q_network self1) (q_network_target self)
        (update_rate base) /\
    all_action_scores self1 = Some (all_q_values loc) /\
    reward_network self1 = reward_network self /\
    reward_network_optimizer self1 = reward_network_optimizer self /\
    q_network_cpe self1 = q_network_cpe self /\
    q_network_cpe_target self1 = q_network_cpe_target self /\
    q_network_cpe_optimizer self1 = q_network_cpe_optimizer self /\
    reward_idx_offsets self1 = reward_idx_offsets self /\
    reward_boosts self1 = reward_boosts self /\
    _actions self1 = _actions self /\
    double_q_learning self1 = double_q_learning self /\
    calculate_cpes self1 tb (state li) (argmax <$> action li)
      (max_q_action_idxs loc)
      (full_like (boosted_rewards loc) (gamma base))
      (b2R <$> not_terminal li)
      = Ok (self', res, cpe_locals loc) /\
    all_action_scores self' = Some scores /\
    model_values rep = scores /\
    reward_loss rep = fst (fst res) /\
    model_rewards rep = snd (fst res) /\
    model_propensities rep = snd res /\
    logged_rewards rep = boosted_rewards loc /\
    logged_actions rep = argmax <$> action li.
Proof.
  intros H tb li base. unfold train in H.
  fold (batch_of as_batch input) in H. fold tb in H. fold li in H. fold base in H.
  unfold get_detached_q_values in H. cbv beta iota zeta in H.
  apply rbind_Ok in H as ([next_q max_idxs] & Hsel & H).
  destruct (optimizer_step _ _ _) as [q_opt q_params] eqn:Hstep in H.
  apply rbind_Ok in H as ([[self2 [[r_loss m_rewards] m_prop]] cl] & Hcpe & H).
  apply rbind_Ok in H as (td & Htd & H).
  apply rbind_Ok in H as (scores & Hscores & H).
  apply rbind_Ok in H as ([_v model_idxs] & Hidx & H).
  injection H as <- <- <-.
  apply getattr_Ok in Hscores.
  eexists
    {| super := base;
       double_q_learning := double_q_learning self;
       minibatch_size := minibatch_size self;
       _actions := _actions self;
       q_network := set_parameters (q_network self) q_params;
       q_network_target :=
         _soft_update (set_parameters (q_network self) q_params)
           (q_network_target self) (update_rate base);
       q_network_optimizer := q_opt;
       reward_network := reward_network self;
       reward_network_optimizer := reward_network_optimizer self;
       q_network_cpe := q_network_cpe self;
       q_network_cpe_target := q_network_cpe_target self;
       q_network_cpe_optimizer := q_network_cpe_optimizer self;
       reward_idx_offsets := reward_idx_offsets self;
       reward_boosts := reward_boosts self;
       all_action_scores := Some (call (q_network self) (state li));
       loss := _ |}, _, (r_loss, m_rewards, m_prop), scores.
  split; [destruct (maxq_learning base); exact Hsel|].
  do 6 (split; [reflexivity|]).
  split.
  { cbn [q_network]. f_equal.
    change q_params with (snd (q_opt, q_params)).
    rewrite <- Hstep. reflexivity. }
  do 11 (split; [reflexivity|]).
  split; [exact Hcpe|].
  split; [exact Hscores|].
  repeat split; reflexivity.
Qed.

End Inversion.

(** ** Construction *)

Section Construction.
Context {optimizer : Optimizer} {autograd : Autograd}.
Variable TrainingDataPage : Type.
Variable as_batch : TrainingDataPage -> TrainingBatch.
Variable base_init :
  DiscreteActionModelParameters -> bool -> option (list string) ->
  option (list R -> list R) -> option (list string) -> DQNTrainerBase.

Lemma list_index_lookup (l : list string) (k : string) (i : nat) :
  list_index l k = Ok i -> l !! i = Some k.
Proof.
  revert i; induction l as [|x l IH]; intros i H; [discriminate|].
  simpl in H. destruct (decide (x = k)) as [->|Hne].
  - injection H as <-. reflexivity.
  - destruct (list_index l k) as [j|e]; [|discriminate].
    simpl in H. injection H as <-. simpl. apply IH. reflexivity.
Qed.

Lemma list_index_absent (l : list string) (k : string) :
  k ∉ l -> list_index l k = Raise (ValueError "not in list").
Proof.
  induction l as [|x l IH]; intros Hk; [reflexivity|].
  simpl. apply not_elem_of_cons in Hk as [Hne Hk].
  destruct (decide (x = k)) as [->|_]; [contradiction|].
  rewrite (IH Hk). reflexivity.
Qed.

Lemma list_index_error (l : list string) (k : string) (e : error) :
  list_index l k = Raise e -> e = ValueError "not in list".
Proof.
  induction l as [|x l IH]; simpl; intros H; [congruence|].
  destruct (decide (x = k)); [discriminate|].
  destruct (list_index l k); [discriminate|].
  simpl in H. injection H as <-. apply IH. reflexivity.
Qed.

Lemma fill_reward_boosts_error acts boost rb e :
  fill_reward_boosts acts boost rb = Raise e ->
  e = ValueError "not in list".
Proof.
  revert rb; induction boost as [|[k v] boost IH]; intros rb H;
    [discriminate|].
  simpl in H. destruct (list_index acts k) as [i|e0] eqn:Hi; simpl in H.
  - eapply IH; eauto.
  - injection H as <-. eapply list_index_error; eauto.
Qed.

Lemma fill_reward_boosts_absent acts boost rb k v :
  (k, v) ∈ boost -> k ∉ acts ->
  fill_reward_boosts acts boost rb = Raise (ValueError "not in list").
Proof.
  revert rb; induction boost as [|[k0 v0] boost IH]; intros rb Hin Hk.
  - inversion Hin.
  - simpl. destruct (list_index acts k0) as [i|e0] eqn:Hi; simpl.
    + apply elem_of_cons in Hin as [Heq|Hin].
      * injection Heq as <- <-.
        rewrite (list_index_absent _ _ Hk) in Hi. discriminate.
      * apply IH; assumption.
    + f_equal. eapply list_index_error; eauto.
Qed.

Lemma fill_reward_boosts_lookup acts boost rb rb' k name v0 :
  NoDup acts -> length rb = length acts ->
  fill_reward_boosts acts boost rb = Ok rb' ->
  acts !! k = Some name -> rb !! k = Some v0 ->
  rb' !! k =
    Some (foldl (fun acc kv => if decide (fst kv = name) then snd kv else acc)
            v0 boost).
Proof.
  intros Hnd. revert rb v0.
  induction boost as [|[k0 w] boost IH]; intros rb v0 Hlen H Hk Hrb.
  - simpl in H. injection H as <-. exact Hrb.
  - simpl in H. destruct (list_index acts k0) as [i|e0] eqn:Hi; [|discriminate].
    simpl in H. apply list_index_lookup in Hi.
    cbn [foldl fst snd].
    apply (IH (<[i:=w]> rb)); try assumption.
    + rewrite length_insert. exact Hlen.
    + destruct (decide (k0 = name)) as [->|Hne].
      * assert (i = k) as -> by (eapply NoDup_lookup; eauto).
        apply list_lookup_insert_eq. rewrite Hlen.
        eapply lookup_lt_Some; eauto.
      * rewrite list_lookup_insert_ne; [exact Hrb|].
        intros ->. congruence.
Qed.

Lemma foldl_boost_absent (name : string) (boost : list (string * R)) (v0 : R) :
  name ∉ boost.*1 ->
  foldl (fun acc kv => if decide (fst kv = name) then snd kv else acc)
    v0 boost = v0.
Proof.
  revert v0; induction boost as [|[k w] boost IH]; intros v0 Hk;
    [reflexivity|].
  rewrite fmap_cons in Hk. apply not_elem_of_cons in Hk as [Hne Hk].
  cbn [foldl fst snd] in *. destruct (decide (k = name)); [congruence|].
  apply IH. exact Hk.
Qed.

(** What a successful construction has set. *)
Lemma init_inv q qt rn params use_gpu qc qct ms (self0 : _DQNTrainer) :
  __init__ base_init q qt rn params use_gpu qc qct ms = Ok self0 ->
  let acts := default [] (actions params) in
  super self0 = base_init params use_gpu ms None (actions params) /\
  _actions self0 = acts /\
  cpe_ready self0 /\
  match rl_reward_boost params with
  | Some boost =>
      fill_reward_boosts acts boost (replicate (length acts) 0)
      = Ok (reward_boosts self0)
  | None => reward_boosts self0 = replicate (length acts) 0
  end.
Proof.
  intros H acts. unfold __init__ in H. fold acts in H.
  apply rbind_Ok in H as ([[[[[rn' ro] qc'] qct'] co] offs] & Hcpe & H).
  apply rbind_Ok in H as (boosts & Hb & H).
  injection H as <-. cbn.
  split; [reflexivity|]. split; [reflexivity|].
  split.
  - unfold cpe_ready. cbn. intros Hon.
    unfold init_cpe in Hcpe. rewrite Hon in Hcpe.
    destruct rn as [rnet|]; [|discriminate].
    destruct qc as [qcn|]; [|discriminate].
    destruct qct as [qctn|]; [|discriminate].
    apply rbind_Ok in Hcpe as (o & _ & Hcpe).
    injection Hcpe as <- <- <- <- <- <-.
    repeat split; eexists; reflexivity.
  - destruct (rl_reward_boost params); [exact Hb|].
    injection Hb as <-. reflexivity.
Qed.

Lemma init_reward_boosts q qt rn params use_gpu qc qct ms
    (self0 : _DQNTrainer) (k : nat) (name : string) :
  __init__ base_init q qt rn params use_gpu qc qct ms = Ok self0 ->
  NoDup (default [] (actions params)) ->
  default [] (actions params) !! k = Some name ->
  reward_boosts self0 !! k
    = Some (configured_boost (rl_reward_boost params) name).
Proof.
  intros H Hnd Hk. apply init_inv in H. cbv zeta in H.
  destruct H as (_ & _ & _ & Hb).
  assert (Hz : replicate (length (default [] (actions params))) 0 !! k
               = Some 0).
  { apply lookup_replicate_2. eapply lookup_lt_Some; eauto. }
  unfold configured_boost.
  destruct (rl_reward_boost params) as [boost|].
  - eapply fill_reward_boosts_lookup; eauto. apply length_replicate.
  - rewrite Hb. exact Hz.
Qed.

End Construction.

(** ** Errors and invariants of the training step *)

Section Run.
Context {optimizer : Optimizer} {autograd : Autograd}.
Variable TrainingDataPage : Type.
Variable as_batch : TrainingDataPage -> TrainingBatch.

Lemma rbind_Raise {A B} (m : result A) (k : A -> result B) (e : error) :
  rbind m k = Raise e ->
  m = Raise e \/ exists a, m = Ok a /\ k a = Raise e.
Proof. destruct m as [a|e0]; simpl; intros H; [eauto | left; congruence]. Qed.

Lemma rmapM_Raise {A B} (f : A -> result B) (l : list A) (e : error) :
  rmapM f l = Raise e -> exists a, f a = Raise e.
Proof.
  induction l as [|a l IH]; simpl; intros H; [discriminate|].
  apply rbind_Raise in H as [H|(b & _ & H)]; [eauto|].
  apply rbind_Raise in H as [H|(bs & _ & H)]; [auto | discriminate].
Qed.

Lemma gather_row_Raise (row : list R) (idxs : list nat) (e : error) :
  gather_row row idxs = Raise e -> e = IndexError.
Proof.
  intros H. apply rmapM_Raise in H as (i & H).
  destruct (row !! i); congruence.
Qed.

Lemma gather_rows_Raise (t : Tensor) (offsets idxs : list nat) (e : error) :
  gather_rows t offsets idxs = Raise e -> e = IndexError.
Proof.
  revert idxs; induction t as [|row t IH]; intros [|i idxs] H;
    try discriminate.
  simpl in H. apply rbind_Raise in H as [H|(r & _ & H)].
  - eapply gather_row_Raise; eauto.
  - apply rbind_Raise in H as [H|(rs & _ & H)]; [eauto | discriminate].
Qed.

Lemma gather_offsets_Raise (t : Tensor) (offsets idxs : list nat) (e : error) :
  gather_offsets t offsets idxs = Raise e -> is_config_error e = false.
Proof.
  unfold gather_offsets. intros H.
  destruct (length t <? length idxs)%nat.
  - injection H as <-. reflexivity.
  - apply gather_rows_Raise in H as ->. reflexivity.
Qed.

Lemma select_rows_Raise (dq : bool) (q qt mask : Tensor) (e : error) :
  select_rows dq q qt mask = Raise e -> is_config_error e = false.
Proof.
  revert qt mask; induction q as [|r q IH]; intros [|rt qt] [|m mask] H;
    try discriminate.
  simpl in H. apply rbind_Raise in H as [H|(s & _ & H)].
  - unfold select_row in H.
    destruct (masked_argmax _ m) as [i|]; [|injection H as <-; reflexivity].
    destruct (rt !! i); [discriminate | injection H as <-; reflexivity].
  - apply rbind_Raise in H as [H|(ss & _ & H)]; [eauto | discriminate].
Qed.

Lemma get_max_q_values_with_target_Raise dq (q qt mask : Tensor) (e : error) :
  get_max_q_values_with_target dq q qt mask = Raise e ->
  is_config_error e = false.
Proof.
  unfold get_max_q_values_with_target. intros H.
  apply rbind_Raise in H as [H|(ss & _ & H)]; [|discriminate].
  eapply select_rows_Raise; eauto.
Qed.

Lemma calculate_cpes_Raise (s : _DQNTrainer) tb st logged maxi disc nd e :
  cpe_ready s -> is_Some (all_action_scores s) ->
  calculate_cpes s tb st logged maxi disc nd = Raise e ->
  is_config_error e = false.
Proof.
  intros Hready [sc Hsc] H. unfold calculate_cpes in H.
  destruct (calc_cpe_in_training (super s)) eqn:Hon; [|discriminate].
  destruct (Hready Hon)
    as ([rn Hrn] & [ro Hro] & [qc Hqc] & [qct Hqct] & [co Hco] & [offs Hoffs]).
  rewrite Hrn, Hro, Hqc, Hqct, Hco, Hoffs, Hsc in H. cbn in H.
  apply rbind_Raise in H as [H|(el & _ & H)];
    [exact (gather_offsets_Raise _ _ _ _ H)|].
  destruct (optimizer_step ro _ _) as [ro' rp].
  apply rbind_Raise in H as [H|(mq & _ & H)];
    [exact (gather_offsets_Raise _ _ _ _ H)|].
  apply rbind_Raise in H as [H|(mm & _ & H)];
    [exact (gather_offsets_Raise _ _ _ _ H)|].
  destruct (optimizer_step co _ _) as [co' cp].
  apply rbind_Raise in H as [H|(off0 & _ & H)].
  { destruct (offs !! 0%nat); [discriminate|].
    injection H as <-. reflexivity. }
  apply rbind_Raise in H as [H|(rm & _ & H)]; [|discriminate].
  apply rmapM_Raise in H as (row & H).
  apply gather_row_Raise in H as ->. reflexivity.
Qed.

(** What a step leaves in place. *)
Lemma train_frame (self self' : _DQNTrainer)
    (input : TrainInput TrainingDataPage) (rep : Report) (loc : TrainLocals) :
  train as_batch self input = Ok (self', rep, loc) ->
  reward_boosts self' = reward_boosts self /\
  _actions self' = _actions self /\
  calc_cpe_in_training (super self') = calc_cpe_in_training (super self) /\
  cpe_ready self'.
Proof.
  intros H. apply train_inv in H. cbv zeta in H.
  destruct H as (self1 & grads & res & scores & _ & _ & _ & _ & _ & _ &
    Hsuper & _ & _ & _ & _ & _ & _ & _ & _ & _ & Hrb & Hacts & _ &
    Hcpe & _).
  pose proof (calculate_cpes_frame _ _ _ _ _ _ _ _ _ _ Hcpe)
    as (Hs & _ & _ & _ & _ & _ & Hrb' & Hacts' & _ & Hoffs').
  split; [congruence|]. split; [congruence|].
  split; [rewrite Hs, Hsuper; reflexivity|].
  intros Hon. rewrite Hs in Hon.
  destruct (calculate_cpes_inv _ _ _ _ _ _ _ _ _ _ Hon Hcpe)
    as (rnet & offsets & r_opt & qc & qct & c_opt & sc & cl0 & r_step &
        c_step & r_loss & rm & _ & Hoffs & _ & _ & _ & _ & _ & _ & _ & _ &
        _ & _ & _ & _ & _ & Hrn' & Hro' & Hqc' & Hco' & Hqct').
  rewrite Hrn', Hro', Hqc', Hco', Hqct', Hoffs', Hoffs.
  repeat split; eexists; reflexivity.
Qed.

Lemma train_all_frame (self0 self : _DQNTrainer)
    (inputs : list (TrainInput TrainingDataPage)) :
  train_all as_batch self0 inputs = Ok self ->
  reward_boosts self = reward_boosts self0 /\
  _actions self = _actions self0 /\
  calc_cpe_in_training (super self) = calc_cpe_in_training (super self0) /\
  (cpe_ready self0 -> cpe_ready self).
Proof.
  revert self0; induction inputs as [|input inputs IH]; intros self0 H.
  - injection H as <-. auto.
  - simpl in H. apply rbind_Ok in H as ([[s1 rep] loc] & Hstep & H).
    apply train_frame in Hstep as (Hrb & Hacts & Hon & Hready).
    apply IH in H as (Hrb' & Hacts' & Hon' & Hready').
    split; [congruence|]. split; [congruence|]. split; [congruence|].
    intros _. apply Hready'. exact Hready.
Qed.

(** A step on a trainer with its CPE attributes set raises no
    configuration error. *)
Lemma train_Raise (self : _DQNTrainer)
    (input : TrainInput TrainingDataPage) (e : error) :
  cpe_ready self ->
  train as_batch self input = Raise e -> is_config_error e = false.
Proof.
  intros Hready H. unfold train in H.
  unfold get_detached_q_values in H. cbv beta iota zeta in H.
  apply rbind_Raise in H as [H|([next_q max_idxs] & _ & H)].
  { destruct (maxq_learning _);
      eapply get_max_q_values_with_target_Raise; eauto. }
  destruct (optimizer_step _ _ _) as [q_opt q_params] in H.
  apply rbind_Raise in H as [H|([[self2 [[rl mr] mp]] cl] & Hcpe & H)].
  { eapply calculate_cpes_Raise; [| |exact H].
    - exact Hready.
    - eexists; reflexivity. }
  apply calculate_cpes_frame in Hcpe
    as (_ & _ & _ & _ & Hsc & Hloss & _).
  cbn in Hsc, Hloss. rewrite Hsc, Hloss in H. cbn in H.
  apply rbind_Raise in H as [H|([v idxs] & _ & H)]; [|discriminate].
  unfold get_max_q_values in H.
  eapply get_max_q_values_with_target_Raise; eauto.
Qed.

End Run.

(** ** Selection and gathering, row by row *)

Section Lookups.

Lemma select_rows_lookup (dq : bool) (q qt mask : Tensor)
    (ss : list (R * nat)) (i : nat) (r rt m : list R) :
  select_rows dq q qt mask = Ok ss ->
  q !! i = Some r -> qt !! i = Some rt -> mask !! i = Some m ->
  exists s, ss !! i = Some s /\ select_row dq r rt m = Ok s.
Proof.
  revert qt mask ss i.
  induction q as [|r0 q IH]; intros qt mask ss i H Hq Hqt Hm;
    [discriminate|].
  destruct qt as [|rt0 qt]; [discriminate|].
  destruct mask as [|m0 mask]; [discriminate|].
  simpl in H.
  destruct (select_row dq r0 rt0 m0) as [s0|e] eqn:Hs0; [|discriminate].
  simpl in H.
  destruct (select_rows dq q qt mask) as [ss0|e] eqn:Hss0; [|discriminate].
  simpl in H. injection H as <-.
  destruct i as [|i]; simpl in *.
  - injection Hq as <-. injection Hqt as <-. injection Hm as <-.
    exists s0. split; [reflexivity | exact Hs0].
  - eapply IH; eauto.
Qed.

Lemma get_max_q_values_with_target_lookup (dq : bool) (q qt mask : Tensor)
    (vals : Column) (idxs : list nat) (i : nat) (r rt m : list R) :
  get_max_q_values_with_target dq q qt mask = Ok (vals, idxs) ->
  q !! i = Some r -> qt !! i = Some rt -> mask !! i = Some m ->
  exists v a, vals !! i = Some v /\ idxs !! i = Some a /\
              select_row dq r rt m = Ok (v, a).
Proof.
  unfold get_max_q_values_with_target. intros H Hq Hqt Hm.
  destruct (select_rows dq q qt mask) as [ss|e] eqn:Hss; [|discriminate].
  simpl in H. injection H as <- <-.
  destruct (select_rows_lookup _ _ _ _ _ _ _ _ _ Hss Hq Hqt Hm)
    as ([v a] & Hi & Hrow).
  exists v, a. rewrite !list_lookup_fmap, Hi. auto.
Qed.

Lemma rmapM_lookup {A B} (f : A -> result B) (l : list A) (bs : list B)
    (i : nat) (a : A) :
  rmapM f l = Ok bs -> l !! i = Some a ->
  exists b, bs !! i = Some b /\ f a = Ok b.
Proof.
  revert bs i; induction l as [|a0 l IH]; intros bs i H Hl; [discriminate|].
  simpl in H.
  destruct (f a0) as [b0|e] eqn:Hb0; [|discriminate]. simpl in H.
  destruct (rmapM f l) as [bs0|e] eqn:Hbs0; [|discriminate]. simpl in H.
  injection H as <-.
  destruct i as [|i]; simpl in *.
  - injection Hl as <-. eauto.
  - eapply IH; eauto.
Qed.

Lemma gather_row_lookup (row : list R) (idxs : list nat) (vals : list R)
    (m j : nat) :
  gather_row row idxs = Ok vals -> idxs !! m = Some j ->
  exists v, vals !! m = Some v /\ row !! j = Some v.
Proof.
  intros H Hj. unfold gather_row in H.
  destruct (rmapM_lookup _ _ _ _ _ H Hj) as (v & Hv & Hrow).
  exists v. split; [exact Hv|].
  destruct (row !! j); [congruence | discriminate].
Qed.

Lemma gather_rows_lookup (t : Tensor) (offsets idxs : list nat)
    (g : Tensor) (i a : nat) (row : list R) :
  gather_rows t offsets idxs = Ok g ->
  t !! i = Some row -> idxs !! i = Some a ->
  exists vals, g !! i = Some vals /\
    gather_row row ((fun off => (off + a)%nat) <$> offsets) = Ok vals.
Proof.
  revert idxs g i; induction t as [|row0 t IH]; intros idxs g i H Ht Hi;
    [discriminate|].
  destruct idxs as [|a0 idxs]; [discriminate|].
  simpl in H.
  destruct (gather_row row0 _) as [r0|e] eqn:Hr0; [|discriminate].
  simpl in H.
  destruct (gather_rows t offsets idxs) as [g0|e] eqn:Hg0; [|discriminate].
  simpl in H. injection H as <-.
  destruct i as [|i]; simpl in *.
  - injection Ht as <-. injection Hi as <-. eauto.
  - eapply IH; eauto.
Qed.

Lemma gather_offsets_lookup (t : Tensor) (offsets idxs : list nat)
    (g : Tensor) (i a : nat) (row : list R) :
  gather_offsets t offsets idxs = Ok g ->
  t !! i = Some row -> idxs !! i = Some a ->
  exists vals, g !! i = Some vals /\
    gather_row row ((fun off => (off + a)%nat) <$> offsets) = Ok vals.
Proof.
  unfold gather_offsets. intros H.
  destruct (length t <? length idxs)%nat; [discriminate|].
  eapply gather_rows_lookup; eauto.
Qed.

End Lookups.

(** ** The masked softmax *)

Section Softmax.

Lemma masked_exp_nonneg (T x m : R) : 0 <= masked_exp T x m.
Proof.
  unfold masked_exp. destruct (Req_dec_T m 0); [lra|].
  left. apply exp_pos.
Qed.

Lemma row_sum_masked_exp_nonneg (T : R) (x mask : list R) :
  0 <= row_sum (zip_with (masked_exp T) x mask).
Proof.
  revert mask; induction x as [|a x IH]; intros [|m mask]; simpl; try lra.
  pose proof (masked_exp_nonneg T a m). pose proof (IH mask). lra.
Qed.

Lemma row_sum_masked_exp_pos (T : R) (x mask : list R) (j : nat) (m : R) :
  length x = length mask -> mask !! j = Some m -> m <> 0 ->
  0 < row_sum (zip_with (masked_exp T) x mask).
Proof.
  revert mask j; induction x as [|a x IH]; intros [|m0 mask] j Hlen Hj Hm;
    simpl in *; try discriminate.
  destruct j as [|j]; simpl in Hj.
  - injection Hj as ->.
    pose proof (row_sum_masked_exp_nonneg T x mask).
    unfold masked_exp at 1. destruct (Req_dec_T m 0); [contradiction|].
    pose proof (exp_pos (a / T)). lra.
  - pose proof (masked_exp_nonneg T a m0).
    pose proof (IH mask j ltac:(lia) Hj Hm). lra.
Qed.

Lemma row_sum_scaled (e : list R) (s : R) :
  row_sum ((fun v => v / s) <$> e) = row_sum e / s.
Proof.
  induction e as [|a e IH].
  - simpl. unfold Rdiv. lra.
  - rewrite fmap_cons. unfold row_sum in *. cbn [foldr].
    rewrite IH. unfold Rdiv. lra.
Qed.

Lemma valid_entries_scaled (T s : R) (x mask : list R) :
  zip_with (fun v m => if Req_dec_T m 0 then 0 else v)
    ((fun v => v / s) <$> zip_with (masked_exp T) x mask) mask
  = (fun v => v / s) <$> zip_with (masked_exp T) x mask.
Proof.
  revert mask; induction x as [|a x IH]; intros [|m mask]; simpl;
    try reflexivity.
  rewrite IH. f_equal.
  unfold masked_exp. destruct (Req_dec_T m 0); [|reflexivity].
  unfold Rdiv. lra.
Qed.

Lemma masked_softmax_row_invalid (T : R) (x mask : list R) (j : nat) :
  length x = length mask -> mask !! j = Some 0 ->
  masked_softmax_row T x mask !! j = Some 0.
Proof.
  intros Hlen Hj. unfold masked_softmax_row. cbv zeta.
  rewrite list_lookup_fmap, lookup_zip_with, Hj.
  destruct (lookup_lt_is_Some_2 x j) as [a Ha].
  { rewrite Hlen. apply lookup_lt_is_Some_1. eauto. }
  rewrite Ha. simpl. f_equal.
  unfold masked_exp. destruct (Req_dec_T 0 0); [|congruence].
  unfold Rdiv. lra.
Qed.

Lemma masked_softmax_row_distribution (T : R) (x mask : list R) :
  length x = length mask ->
  (exists j m, mask !! j = Some m /\ m <> 0) ->
  row_sum (masked_softmax_row T x mask) = 1 /\
  valid_sum (masked_softmax_row T x mask) mask = 1.
Proof.
  intros Hlen (j & m & Hj & Hm).
  pose proof (row_sum_masked_exp_pos T x mask j m Hlen Hj Hm) as Hpos.
  unfold masked_softmax_row, valid_sum. cbv zeta.
  rewrite valid_entries_scaled, row_sum_scaled.
  assert (Hone : row_sum (zip_with (masked_exp T) x mask)
                 / row_sum (zip_with (masked_exp T) x mask) = 1)
    by (field; lra).
  split; exact Hone.
Qed.

End Softmax.

(** ** The training step *)

Section Step.
Context {optimizer : Optimizer} {autograd : Autograd}.
Variable TrainingDataPage : Type.
Variable as_batch : TrainingDataPage -> TrainingBatch.

(** The update rate of a step, from the counter the step reads. *)
Lemma update_rate_set_minibatch (b : DQNTrainerBase) (n : Z) :
  update_rate (set_minibatch b n) =
  if (n <? reward_burnin b)%Z then 1 else tau b.
Proof. reflexivity. Qed.


Lemma lookup_full_like (x : Column) (v : R) (i : nat) (r : R) :
  x !! i = Some r -> full_like x v !! i = Some v.
Proof. intros Hx. unfold full_like. rewrite list_lookup_fmap, Hx. reflexivity. Qed.

(** The shaped rewards, the selected next-state values and the targets of a
    step, sample by sample. *)
Lemma step_targets (self self' : _DQNTrainer)
    (input : TrainInput TrainingDataPage) (rep : Report) (loc : TrainLocals) :
  train as_batch self input = Ok (self', rep, loc) ->
  let li := training_input (batch_of as_batch input) in
  let step := (minibatch (super self) + 1)%Z in
  let mask :=
    if maxq_learning (super self)
    then fmap (M:=list) b2R <$> possible_next_actions_mask li
    else next_action li in
  (forall i r a,
     reward li !! i = Some r -> action li !! i = Some a ->
     boosted_rewards loc !! i = Some (r + dot a (reward_boosts self))) /\
  (forall i q qt m,
     call (q_network self) (next_state li) !! i = Some q ->
     call (q_network_target self) (next_state li) !! i = Some qt ->
     mask !! i = Some m ->
     exists v idx,
       select_row (double_q_learning self) q qt m = Ok (v, idx) /\
       next_q_values loc !! i = Some v /\
       max_q_action_idxs loc !! i = Some idx) /\
  ((step < reward_burnin (super self))%Z ->
   target_q_values loc = boosted_rewards loc) /\
  ((reward_burnin (super self) <= step)%Z ->
   forall i r v d,
     boosted_rewards loc !! i = Some r ->
     next_q_values loc !! i = Some v ->
     not_terminal li !! i = Some d ->
     target_q_values loc !! i = Some (r + gamma (super self) * (v * b2R d))).
Proof.
  intros H li step mask. apply train_inv in H. cbv zeta in H.
  destruct H as (self1 & grads & res & scores & Hsel & Hboost & Hfilt & Htgt &
    _).
  cbn [minibatch reward_burnin gamma maxq_learning set_minibatch]
    in Htgt, Hsel.
  fold li in Hsel, Hboost, Hfilt. fold mask in Hsel. fold step in Htgt.
  split; [|split; [|split]].
  - intros i r a Hr Ha. rewrite Hboost. unfold boost_rewards.
    rewrite lookup_zip_with, Hr. simpl. rewrite Ha. reflexivity.
  - intros i q qt m Hq Hqt Hm.
    destruct (get_max_q_values_with_target_lookup _ _ _ _ _ _ _ _ _ _
                Hsel Hq Hqt Hm) as (v & idx & Hv & Hidx & Hrow).
    exists v, idx. auto.
  - intros Hlt. apply Z.ltb_lt in Hlt. rewrite Hlt in Htgt. exact Htgt.
  - intros Hge i r v d Hr Hv Hd.
    apply Z.ltb_ge in Hge. rewrite Hge in Htgt.
    rewrite Htgt, Hfilt.
    rewrite !lookup_zip_with, Hr. simpl.
    rewrite (lookup_full_like _ _ _ _ Hr). simpl.
    rewrite Hv. simpl.
    rewrite list_lookup_fmap, Hd. reflexivity.
Qed.

(** The two writes of the primary part of a step: the optimizer step of the
    online network, against the targets of the step, and the soft update
    of the target network. *)
Lemma step_primary_update (self self' : _DQNTrainer)
    (input : TrainInput TrainingDataPage) (rep : Report) (loc : TrainLocals) :
  train as_batch self input = Ok (self', rep, loc) ->
  let li := training_input (batch_of as_batch input) in
  let step := (minibatch (super self) + 1)%Z in
  let rate :=
    if (step <? reward_burnin (super self))%Z then 1 else tau (super self) in
  let grads :=
    grad (fun theta =>
            q_network_loss (super self)
              (as_rows (zip_with dot
                          (forward (q_network self) theta (state li))
                          (action li)))
              (as_rows (target_q_values loc)))
      (parameters (q_network self)) in
  q_network self'
  = set_parameters (q_network self)
      (snd (optimizer_step (q_network_optimizer self)
              (parameters (q_network self))
              (match gradient_handler (super self) with
               | Some handler => handler grads
               | None => grads
               end))) /\
  parameters (q_network_target self')
  = zip_with (fun t_param param => t_param * (1 - rate) + param * rate)
      (parameters (q_network_target self)) (parameters (q_network self')).
Proof.
  intros H li step rate grads. apply train_inv in H. cbv zeta in H.
  destruct H as (self1 & g & res & scores & _ & _ & _ & _ & _ & Hg &
    Hsuper & Hq & Hqt & _ & _ & _ & _ & _ & _ & _ & _ & _ & _ & Hcpe & _).
  apply calculate_cpes_frame in Hcpe as (_ & Hq' & Hqt' & _).
  subst g. split.
  - rewrite Hq', Hq. reflexivity.
  - rewrite Hqt', Hqt, Hq'. rewrite update_rate_set_minibatch. reflexivity.
Qed.

(** C10: the entry point [train] accepts a raw page or a converted batch;
    on a page it performs exactly the computation and the state change
    of [train] on the converted batch, in one step and along a whole
    sequence of steps. *)
Theorem train_page_is_train_batch (self : _DQNTrainer) :
  (forall p : TrainingDataPage,
     train as_batch self (Page p) = train as_batch self (Batch (as_batch p))) /\
  (forall inputs : list (TrainInput TrainingDataPage),
     train_all as_batch self inputs
     = train_all as_batch self (converted as_batch <$> inputs)).
Proof.
  split; [reflexivity|].
  intros inputs. revert self.
  induction inputs as [|input inputs IH]; intros self; [reflexivity|].
  rewrite fmap_cons. cbn [train_all].
  assert (Hstep : train as_batch self (converted as_batch input)
                  = train as_batch self input)
    by (destruct input; reflexivity).
  rewrite Hstep.
  destruct (train as_batch self input) as [[[self1 rep] loc]|e];
    [exact (IH self1) | reflexivity].
Qed.

(** C9: with CPE disabled, [calculate_cpes] returns [(None, None, None)]
    on every batch and leaves the trainer, hence the reward network, the
    CPE value network, the CPE target network and their optimizers,
    as they were; so does a whole training step. *)
Theorem calculate_cpes_disabled (self : _DQNTrainer) :
  calc_cpe_in_training (super self) = false ->
  (forall tb st logged maxi disc nd,
     calculate_cpes self tb st logged maxi disc nd
     = Ok (self, (None, None, None), None)) /\
  (forall input self' rep loc,
     train as_batch self input = Ok (self', rep, loc) ->
     reward_network self' = reward_network self /\
     reward_network_optimizer self' = reward_network_optimizer self /\
     q_network_cpe self' = q_network_cpe self /\
     q_network_cpe_target self' = q_network_cpe_target self /\
     q_network_cpe_optimizer self' = q_network_cpe_optimizer self /\
     reward_loss rep = None /\ model_rewards rep = None /\
     model_propensities rep = None).
Proof.
  intros Hoff. split.
  - intros. unfold calculate_cpes. rewrite Hoff. reflexivity.
  - intros input self' rep loc H.
    apply train_inv in H. cbv zeta in H.
    destruct H as (self1 & grads & res & scores & _ & _ & _ & _ & _ & _ &
      Hsuper & _ & _ & _ & Hrn & Hro & Hqc & Hqct & Hqco & _ & _ & _ & _ &
      Hcpe & _ & _ & Hrl & Hmr & Hmp & _).
    unfold calculate_cpes in Hcpe. rewrite Hsuper in Hcpe.
    cbn [calc_cpe_in_training set_minibatch] in Hcpe.
    rewrite Hoff in Hcpe. simpl in Hcpe. injection Hcpe as <- <- _.
    rewrite Hrl, Hmr, Hmp. repeat split; assumption.
Qed.

(** C2: the target of a step.  The step counter is [self.minibatch] as the
    step reads it, after [self.minibatch += 1].  Every sample of the batch
    gets a target.  Below the burn-in threshold it is the shaped reward of
    the sample, whatever the next-state values; otherwise it is the shaped
    reward plus [gamma * next_state_value * not_terminal], with the value
    the target selector returns for the sample, hence the shaped reward on
    a terminal transition.  The optimizer step of the primary network is
    taken on the loss against these targets. *)
Theorem target_construction (self self' : _DQNTrainer)
    (input : TrainInput TrainingDataPage) (rep : Report) (loc : TrainLocals) :
  train as_batch self input = Ok (self', rep, loc) ->
  let li := training_input (batch_of as_batch input) in
  let step := (minibatch (super self) + 1)%Z in
  let mask :=
    if maxq_learning (super self)
    then fmap (M:=list) b2R <$> possible_next_actions_mask li
    else next_action li in
  let shaped := fun (r : R) (a : list R) => r + dot a (reward_boosts self) in
  minibatch (super self') = step /\
  (forall (i : nat) (r : R) (a : list R),
     reward li !! i = Some r -> action li !! i = Some a ->
     boosted_rewards loc !! i = Some (shaped r a)) /\
  ((step < reward_burnin (super self))%Z ->
   forall (i : nat) (r : R) (a : list R),
     reward li !! i = Some r -> action li !! i = Some a ->
     target_q_values loc !! i = Some (shaped r a)) /\
  ((reward_burnin (super self) <= step)%Z ->
   forall (i : nat) (r : R) (a : list R) (d : bool) (q qt m : list R),
     reward li !! i = Some r -> action li !! i = Some a ->
     not_terminal li !! i = Some d ->
     call (q_network self) (next_state li) !! i = Some q ->
     call (q_network_target self) (next_state li) !! i = Some qt ->
     mask !! i = Some m ->
     exists (v : R) (idx : nat),
       select_row (double_q_learning self) q qt m = Ok (v, idx) /\
       next_q_values loc !! i = Some v /\
       target_q_values loc !! i
         = Some (shaped r a + gamma (super self) * (v * b2R d)) /\
       (d = false -> target_q_values loc !! i = Some (shaped r a))) /\
  q_network self'
  = set_parameters (q_network self)
      (snd (optimizer_step (q_network_optimizer self)
              (parameters (q_network self))
              (let grads :=
                 grad (fun theta =>
                         q_network_loss (super self)
                           (as_rows
                              (zip_with dot
                                 (forward (q_network self) theta (state li))
                                 (action li)))
                           (as_rows (target_q_values loc)))
                   (parameters (q_network self)) in
               match gradient_handler (super self) with
               | Some handler => handler grads
               | None => grads
               end))).
Proof.
  intros H li step mask shaped.
  pose proof (step_targets _ _ _ _ _ H) as (Hshaped & Hsel & Hburn & Hboot).
  pose proof (step_primary_update _ _ _ _ _ H) as (Hupdate & _).
  fold li in Hshaped, Hsel, Hboot. fold step in Hburn, Hboot.
  fold mask in Hsel.
  apply train_inv in H. cbv zeta in H.
  destruct H as (self1 & grads & res & scores & _ & _ & _ & _ & _ & _ &
    Hsuper & _ & _ & _ & _ & _ & _ & _ & _ & _ & _ & _ & _ & Hcpe & _).
  apply calculate_cpes_frame in Hcpe as (Hs & _).
  split; [rewrite Hs, Hsuper; reflexivity|].
  split; [exact Hshaped|].
  split.
  - intros Hlt i r a Hr Ha. rewrite (Hburn Hlt). exact (Hshaped i r a Hr Ha).
  - split; [|exact Hupdate].
    intros Hge i r a d q qt m Hr Ha Hd Hq Hqt Hm.
    destruct (Hsel i q qt m Hq Hqt Hm) as (v & idx & Hrow & Hv & _).
    exists v, idx.
    pose proof (Hboot Hge i _ v d (Hshaped i r a Hr Ha) Hv Hd) as Hi.
    split; [exact Hrow|]. split; [exact Hv|]. split; [exact Hi|].
    intros ->. rewrite Hi. apply f_equal. unfold shaped. simpl. ring.
Qed.


(** The propensities of a step with CPE enabled. *)
Lemma step_propensities (self self' : _DQNTrainer)
    (input : TrainInput TrainingDataPage) (rep : Report) (loc : TrainLocals) :
  train as_batch self input = Ok (self', rep, loc) ->
  calc_cpe_in_training (super self) = true ->
  let li := training_input (batch_of as_batch input) in
  exists props,
    model_propensities rep = Some props /\
    props = masked_softmax (call (q_network self) (state li))
              (if maxq_learning (super self)
               then possible_actions_mask li else action li)
              (rl_temperature (super self)).
Proof.
  intros H Hon li. apply train_inv in H. cbv zeta in H.
  destruct H as (self1 & grads & res & scores & _ & _ & _ & _ & Hall & _ &
    Hsuper & _ & _ & Hscores1 & _ & _ & _ & _ & _ & _ & _ & _ & _ &
    Hcpe & _ & _ & _ & _ & Hmp & _).
  assert (Hon1 : calc_cpe_in_training (super self1) = true)
    by (rewrite Hsuper; exact Hon).
  destruct (calculate_cpes_inv _ _ _ _ _ _ _ _ _ _ Hon1 Hcpe)
    as (rnet & offsets & r_opt & qc & qct & c_opt & sc & cl0 & r_step &
        c_step & r_loss & rm & _ & _ & _ & _ & _ & _ & Hsc & _ & _ & _ &
        _ & _ & _ & Hmask & Hres & _).
  eexists. split; [rewrite Hmp, Hres; reflexivity|].
  rewrite Hmask, Hsuper. rewrite Hscores1, Hall in Hsc.
  injection Hsc as <-. reflexivity.
Qed.

(** C3: in on-policy mode, on a sample whose next action is the one-hot
    vector of action [k], the target selector (the masked maximum with the
    next action as validity mask) returns the inner product of the target
    network's next-state values with the next action, and the index it
    selects is the argmax of the one-hot vector, which is [k]. *)
Theorem on_policy_selection (self self' : _DQNTrainer)
    (input : TrainInput TrainingDataPage) (rep : Report) (loc : TrainLocals) :
  train as_batch self input = Ok (self', rep, loc) ->
  maxq_learning (super self) = false ->
  let li := training_input (batch_of as_batch input) in
  forall (i n k : nat) (q qt : list R),
    next_action li !! i = Some (one_hot n k) -> (k < n)%nat ->
    call (q_network self) (next_state li) !! i = Some q ->
    call (q_network_target self) (next_state li) !! i = Some qt ->
    length q = n -> length qt = n ->
    next_q_values loc !! i = Some (dot qt (one_hot n k)) /\
    max_q_action_idxs loc !! i = Some (argmax (one_hot n k)) /\
    argmax (one_hot n k) = k.
Proof.
  intros H Hsarsa li i n k q qt Hna Hk Hq Hqt Hlq Hlqt.
  apply train_inv in H. cbv zeta in H.
  destruct H as (self1 & grads & res & scores & Hsel & _).
  cbn [maxq_learning set_minibatch] in Hsel. rewrite Hsarsa in Hsel.
  destruct (get_max_q_values_with_target_lookup _ _ _ _ _ _ _ _ _ _
              Hsel Hq Hqt Hna) as (v & a & Hv & Ha & Hrow).
  unfold select_row in Hrow.
  rewrite masked_argmax_one_hot in Hrow
    by (try assumption; destruct (double_q_learning self); lia).
  destruct (qt !! k) as [w|] eqn:Hw; [|discriminate].
  injection Hrow as <- <-.
  rewrite (dot_one_hot_r qt n k w Hk Hw), (argmax_one_hot n k Hk).
  auto.
Qed.

(** C1 (as amended): [calculate_cpes] runs on the trainer [self1] whose
    primary network has taken its optimizer step and whose target network
    has been soft-updated, but the detached snapshot it reads, from which
    the propensities and the reported model values come, is the output
    of the forward pass of the primary network before that step. *)
Theorem cpe_reads_forward_snapshot (self self' : _DQNTrainer)
    (input : TrainInput TrainingDataPage) (rep : Report) (loc : TrainLocals) :
  train as_batch self input = Ok (self', rep, loc) ->
  let tb := batch_of as_batch input in
  let li := training_input tb in
  let base := set_minibatch (super self) (minibatch (super self) + 1) in
  let snapshot := call (q_network self) (state li) in
  exists (self1 : _DQNTrainer) res,
    calculate_cpes self1 tb (state li) (argmax <$> action li)
      (max_q_action_idxs loc)
      (full_like (boosted_rewards loc) (gamma base))
      (b2R <$> not_terminal li) = Ok (self', res, cpe_locals loc) /\
    q_network self1 = q_network self' /\
    q_network_target self1 = q_network_target self' /\
    q_network_target self1 =
      _soft_update (q_network self1) (q_network_target self)
        (update_rate base) /\
    all_action_scores self1 = Some snapshot /\
    model_values rep = snapshot /\
    (calc_cpe_in_training (super self) = true ->
     model_propensities rep =
       Some (masked_softmax snapshot
               (if maxq_learning (super self)
                then possible_actions_mask li else action li)
               (rl_temperature (super self)))).
Proof.
  intros H tb li base snapshot. apply train_inv in H. cbv zeta in H.
  destruct H as (self1 & grads & res & scores & _ & _ & _ & _ & Hall & _ &
    Hsuper & _ & Hqt & Hscores1 & _ & _ & _ & _ & _ & _ & _ & _ & _ &
    Hcpe & Hscores & Hmv & _ & _ & Hmp & _).
  pose proof (calculate_cpes_frame _ _ _ _ _ _ _ _ _ _ Hcpe)
    as (_ & Hq' & Hqt' & _ & Hsc' & _).
  fold tb li base in Hcpe, Hqt, Hall, Hsuper.
  exists self1, res.
  rewrite Hall in Hscores1.
  assert (Hsnap : scores = snapshot).
  { rewrite Hsc', Hscores1 in Hscores. injection Hscores as <-. reflexivity. }
  split; [exact Hcpe|]. split; [symmetry; exact Hq'|].
  split; [symmetry; exact Hqt'|]. split; [exact Hqt|].
  split; [exact Hscores1|]. split; [rewrite Hmv; exact Hsnap|].
  intros Hon.
  assert (Hon1 : calc_cpe_in_training (super self1) = true)
    by (rewrite Hsuper; exact Hon).
  destruct (calculate_cpes_inv _ _ _ _ _ _ _ _ _ _ Hon1 Hcpe)
    as (rnet & offsets & r_opt & qc & qct & c_opt & sc & cl0 & r_step &
        c_step & r_loss & rm & _ & _ & _ & _ & _ & _ & Hsc & _ & _ & _ &
        _ & _ & _ & Hmask & Hres & _).
  rewrite Hmp, Hres. cbn [snd]. rewrite Hmask, Hsuper.
  rewrite Hscores1 in Hsc. injection Hsc as <-. reflexivity.
Qed.

(** C6: with CPE enabled and a positive temperature, the propensities
    [calculate_cpes] returns are the masked softmax of the detached
    current-state values of the primary network, under
    [possible_actions_mask] in max-action mode and under the taken-action
    one-hot in on-policy mode; they are 0 on the invalid actions of every
    sample and, on a sample with a valid action, sum to 1 over the valid
    actions. *)
Theorem propensities_are_masked_softmax (self self' : _DQNTrainer)
    (input : TrainInput TrainingDataPage) (rep : Report) (loc : TrainLocals) :
  train as_batch self input = Ok (self', rep, loc) ->
  calc_cpe_in_training (super self) = true ->
  0 < rl_temperature (super self) ->
  let li := training_input (batch_of as_batch input) in
  let scores := call (q_network self) (state li) in
  let mask :=
    if maxq_learning (super self)
    then possible_actions_mask li else action li in
  exists props,
    model_propensities rep = Some props /\
    props = masked_softmax scores mask (rl_temperature (super self)) /\
    forall (i : nat) (x mrow : list R),
      scores !! i = Some x -> mask !! i = Some mrow ->
      length x = length mrow ->
      exists p,
        props !! i = Some p /\
        (forall j, mrow !! j = Some 0 -> p !! j = Some 0) /\
        ((exists j m, mrow !! j = Some m /\ m <> 0) ->
         row_sum p = 1 /\ valid_sum p mrow = 1).
Proof.
  intros H Hon HT li scores mask.
  destruct (step_propensities _ _ _ _ _ H Hon) as (props & Hp & ->).
  exists (masked_softmax scores mask (rl_temperature (super self))).
  split; [exact Hp|]. split; [reflexivity|].
  intros i x mrow Hx Hm Hlen.
  exists (masked_softmax_row (rl_temperature (super self)) x mrow).
  split; [|split].
  - unfold masked_softmax. rewrite lookup_zip_with, Hx. simpl.
    rewrite Hm. reflexivity.
  - intros j Hj. apply masked_softmax_row_invalid; assumption.
  - intros Hvalid. apply masked_softmax_row_distribution; assumption.
Qed.

(** The optimizer step of the CPE value network, lines 236-241. *)
Lemma cpe_value_step (s s' : _DQNTrainer) tb st logged maxi disc nd res cl :
  calc_cpe_in_training (super s) = true ->
  calculate_cpes s tb st logged maxi disc nd = Ok (s', res, cl) ->
  exists qc c_opt offsets cl0,
    q_network_cpe s = Some qc /\
    q_network_cpe_optimizer s = Some c_opt /\
    reward_idx_offsets s = Some offsets /\
    cl = Some cl0 /\
    q_network_cpe s'
    = Some (set_parameters qc
              (snd (optimizer_step c_opt (parameters qc)
                      (grad (gathered_loss (q_network_loss (super s)) qc st
                               offsets logged (target_metric_q_values cl0))
                         (parameters qc))))).
Proof.
  unfold calculate_cpes. intros Hcpe H. rewrite Hcpe in H. simpl in H.
  apply rbind_Ok in H as (rnet & Hrnet & H).
  apply rbind_Ok in H as (offsets & Hoff & H).
  apply rbind_Ok in H as (est & Hest & H).
  apply rbind_Ok in H as (r_opt & Hropt & H).
  destruct (optimizer_step r_opt _ _) as [r_opt' r_params].
  apply rbind_Ok in H as (qc & Hqc & H).
  apply rbind_Ok in H as (mq & Hmq & H).
  apply rbind_Ok in H as (qct & Hqct & H).
  apply rbind_Ok in H as (maxm & Hmaxm & H).
  apply rbind_Ok in H as (c_opt & Hcopt & H).
  destruct (optimizer_step c_opt _ _) as [c_opt' c_params] eqn:Hcstep.
  apply rbind_Ok in H as (scores & Hscores & H).
  apply rbind_Ok in H as (off0 & Hoff0 & H).
  apply rbind_Ok in H as (rm & Hrm & H).
  injection H as <- _ <-.
  apply getattr_Ok in Hoff, Hqc, Hcopt.
  eexists qc, c_opt, offsets, _.
  split; [exact Hqc|]. split; [exact Hcopt|]. split; [exact Hoff|].
  split; [reflexivity|].
  cbn [q_network_cpe target_metric_q_values]. rewrite Hcstep. reflexivity.
Qed.

(** C5: in the training of the CPE value model, the bootstrap value of
    sample [i] and metric [m] is the estimate of the CPE target network on
    the current state at index [metric_offset[m] + a], where [a] is the
    index the primary target selector returned for the sample, the same
    for every metric.  Every sample gets a row of per-metric targets: its
    row of the reward tensor (raw reward, then metrics) below the burn-in
    threshold, and entry by entry
    [reward + discount * bootstrap * not_terminal] otherwise.  The optimizer
    step of the CPE value network is taken on the loss against these
    targets. *)
Theorem cpe_value_targets (self self' : _DQNTrainer)
    (input : TrainInput TrainingDataPage) (rep : Report) (loc : TrainLocals) :
  train as_batch self input = Ok (self', rep, loc) ->
  calc_cpe_in_training (super self) = true ->
  let tb := batch_of as_batch input in
  let li := training_input tb in
  let step := (minibatch (super self) + 1)%Z in
  let mask :=
    if maxq_learning (super self)
    then fmap (M:=list) b2R <$> possible_next_actions_mask li
    else next_action li in
  let metric_row := fun i : nat =>
    match metrics (extras tb) with
    | None => Some []
    | Some ms => ms !! i
    end in
  exists cl qct qc c_opt offsets,
    get_max_q_values_with_target (double_q_learning self)
      (call (q_network self) (next_state li))
      (call (q_network_target self) (next_state li)) mask
      = Ok (next_q_values loc, max_q_action_idxs loc) /\
    cpe_locals loc = Some cl /\
    q_network_cpe_target self = Some qct /\
    q_network_cpe self = Some qc /\
    q_network_cpe_optimizer self = Some c_opt /\
    reward_idx_offsets self = Some offsets /\
    metric_target_q_values cl = call qct (state li) /\
    (forall (i m off a : nat) (row : list R),
       offsets !! m = Some off ->
       max_q_action_idxs loc !! i = Some a ->
       metric_target_q_values cl !! i = Some row ->
       exists vals v,
         max_q_values_metrics cl !! i = Some vals /\
         vals !! m = Some v /\ row !! (off + a)%nat = Some v) /\
    (forall (i : nat) (r : R) (mrow : list R),
       reward li !! i = Some r -> metric_row i = Some mrow ->
       metrics_reward_concat_real_vals cl !! i = Some (r :: mrow)) /\
    ((step < reward_burnin (super self))%Z ->
     forall (i : nat) (r : R) (mrow : list R),
       reward li !! i = Some r -> metric_row i = Some mrow ->
       target_metric_q_values cl !! i = Some (r :: mrow)) /\
    ((reward_burnin (super self) <= step)%Z ->
     forall (i m off : nat) (r x : R) (mrow act row q qt mk : list R)
            (d : bool),
       reward li !! i = Some r -> metric_row i = Some mrow ->
       (r :: mrow) !! m = Some x ->
       offsets !! m = Some off ->
       action li !! i = Some act ->
       not_terminal li !! i = Some d ->
       call qct (state li) !! i = Some row ->
       call (q_network self) (next_state li) !! i = Some q ->
       call (q_network_target self) (next_state li) !! i = Some qt ->
       mask !! i = Some mk ->
       exists (vsel : R) (a : nat) (v : R) (trow : list R),
         select_row (double_q_learning self) q qt mk = Ok (vsel, a) /\
         row !! (off + a)%nat = Some v /\
         target_metric_q_values cl !! i = Some trow /\
         trow !! m = Some (x + gamma (super self) * (v * b2R d))) /\
    q_network_cpe self'
    = Some (set_parameters qc
              (snd (optimizer_step c_opt (parameters qc)
                      (grad (gathered_loss (q_network_loss (super self)) qc
                               (state li) offsets (argmax <$> action li)
                               (target_metric_q_values cl))
                         (parameters qc))))).
Proof.
  intros H Hon tb li step mask metric_row.
  pose proof (step_targets _ _ _ _ _ H) as (Hshaped & Hselrow & _).
  fold tb li in Hshaped, Hselrow. fold mask in Hselrow.
  apply train_inv in H. cbv zeta in H.
  destruct H as (self1 & grads & res & scores & Hsel & _ & _ & _ & _ & _ &
    Hsuper & _ & _ & _ & _ & _ & Hqc0 & Hqct0 & Hco0 & Hoff0 & _ & _ & _ &
    Hcpe & _).
  cbn [maxq_learning set_minibatch] in Hsel. fold tb li in Hsel, Hcpe.
  fold mask in Hsel.
  assert (Hon1 : calc_cpe_in_training (super self1) = true)
    by (rewrite Hsuper; exact Hon).
  destruct (calculate_cpes_inv _ _ _ _ _ _ _ _ _ _ Hon1 Hcpe)
    as (rnet & offsets & r_opt & qc & qct & c_opt & sc & cl & r_step &
        c_step & r_loss & rm & _ & Hoff & _ & Hqc & Hqct & Hco & _ & Hcl &
        Hreal & _ & Hmt & Hgather & Htgt & _).
  destruct (cpe_value_step _ _ _ _ _ _ _ _ _ _ Hon1 Hcpe)
    as (qc' & c_opt' & offsets' & cl' & Hqc' & Hco' & Hoff' & Hcl' & Hupd).
  assert (qc' = qc) as -> by congruence.
  assert (c_opt' = c_opt) as -> by congruence.
  assert (offsets' = offsets) as -> by congruence.
  assert (cl' = cl) as -> by congruence.
  rewrite Hsuper in Htgt, Hupd.
  cbn [minibatch reward_burnin q_network_loss set_minibatch] in Htgt, Hupd.
  fold step in Htgt.
  assert (Hrow : forall (i : nat) (r : R) (mrow : list R),
            reward li !! i = Some r -> metric_row i = Some mrow ->
            metrics_reward_concat_real_vals cl !! i = Some (r :: mrow)).
  { intros i r mrow Hr Hm. rewrite Hreal. fold tb li. unfold metric_row in Hm.
    destruct (metrics (extras tb)) as [ms|].
    - rewrite lookup_zip_with, Hr. simpl. rewrite Hm. reflexivity.
    - injection Hm as <-. unfold as_rows.
      rewrite list_lookup_fmap, Hr. reflexivity. }
  assert (Hgath : forall (i m off a : nat) (row : list R),
            offsets !! m = Some off ->
            max_q_action_idxs loc !! i = Some a ->
            metric_target_q_values cl !! i = Some row ->
            exists vals v,
              max_q_values_metrics cl !! i = Some vals /\
              vals !! m = Some v /\ row !! (off + a)%nat = Some v).
  { intros i m off a row Hm Ha Hrw.
    destruct (gather_offsets_lookup _ _ _ _ _ _ _ Hgather Hrw Ha)
      as (vals & Hvals & Hg).
    assert (Hidx : ((fun o => (o + a)%nat) <$> offsets) !! m
                   = Some (off + a)%nat)
      by (rewrite list_lookup_fmap, Hm; reflexivity).
    destruct (gather_row_lookup _ _ _ _ _ Hg Hidx) as (v & Hv & Hr).
    exists vals, v. auto. }
  exists cl, qct, qc, c_opt, offsets.
  split; [exact Hsel|]. split; [exact Hcl|].
  split; [rewrite <- Hqct0; exact Hqct|].
  split; [rewrite <- Hqc0; exact Hqc|].
  split; [rewrite <- Hco0; exact Hco|].
  split; [rewrite <- Hoff0; exact Hoff|]. split; [exact Hmt|].
  split; [exact Hgath|]. split; [exact Hrow|].
  split.
  { intros Hlt i r mrow Hr Hm. apply Z.ltb_lt in Hlt. rewrite Hlt in Htgt.
    rewrite Htgt. exact (Hrow i r mrow Hr Hm). }
  split; [|exact Hupd].
  intros Hge i m off r x mrow act row q qt mk d Hr Hm Hx Hoffm Hact Hd Hrw
    Hq Hqt Hmk.
  apply Z.ltb_ge in Hge. rewrite Hge in Htgt.
  destruct (Hselrow i q qt mk Hq Hqt Hmk) as (vsel & a & Hsr & _ & Ha).
  rewrite <- Hmt in Hrw.
  destruct (Hgath i m off a row Hoffm Ha Hrw) as (vals & v & Hvals & Hv & Hrv).
  exists vsel, a, v,
    (zip_with Rplus (r :: mrow)
       (Rmult (gamma (super self)) <$> ((fun w => w * b2R d) <$> vals))).
  split; [exact Hsr|]. split; [exact Hrv|]. split.
  - rewrite Htgt, !lookup_zip_with, (Hrow i r mrow Hr Hm). simpl.
    rewrite (lookup_full_like _ _ _ _ (Hshaped i r act Hr Hact)). simpl.
    rewrite Hvals. simpl.
    rewrite list_lookup_fmap, Hd. reflexivity.
  - rewrite lookup_zip_with, Hx. simpl.
    rewrite !list_lookup_fmap, Hv. reflexivity.
Qed.

End Step.

(** ** Configuration: reward boosts and configuration errors *)

Section Configuration.
Context {optimizer : Optimizer} {autograd : Autograd}.
Variable TrainingDataPage : Type.
Variable as_batch : TrainingDataPage -> TrainingBatch.
Variable base_init :
  DiscreteActionModelParameters -> bool -> option (list string) ->
  option (list R -> list R) -> option (list string) -> DQNTrainerBase.

(** C7: in every step of a constructed trainer, the shaped reward of a
    sample is its raw reward plus the boost configured for the action it
    takes (one-hot), and the raw reward itself when no boost is
    configured for that action. *)
Theorem reward_shaping q qt rn params use_gpu qc qct ms
    (self0 self self' : _DQNTrainer)
    (inputs : list (TrainInput TrainingDataPage))
    (input : TrainInput TrainingDataPage) (rep : Report) (loc : TrainLocals) :
  __init__ base_init q qt rn params use_gpu qc qct ms = Ok self0 ->
  train_all as_batch self0 inputs = Ok self ->
  train as_batch self input = Ok (self', rep, loc) ->
  let acts := default [] (actions params) in
  let li := training_input (batch_of as_batch input) in
  NoDup acts ->
  forall (i k : nat) (name : string) (r : R),
    acts !! k = Some name ->
    reward li !! i = Some r ->
    action li !! i = Some (one_hot (length acts) k) ->
    boosted_rewards loc !! i
      = Some (r + configured_boost (rl_reward_boost params) name) /\
    logged_rewards rep = boosted_rewards loc /\
    (name ∉ (default [] (rl_reward_boost params)).*1 ->
     boosted_rewards loc !! i = Some r).
Proof.
  intros Hinit Hall H acts li Hnd i k name r Hk Hr Ha.
  pose proof (init_reward_boosts _ _ _ _ _ _ _ _ _ _ k name Hinit Hnd Hk)
    as Hb0.
  apply train_all_frame in Hall as (Hrb & _).
  apply train_inv in H. cbv zeta in H.
  destruct H as (self1 & grads & res & scores & _ & Hboost & _ & _ & _ & _ &
    _ & _ & _ & _ & _ & _ & _ & _ & _ & _ & _ & _ & _ & _ & _ & _ & _ & _ &
    _ & Hlr & _).
  fold li in Hboost.
  assert (Hi : boosted_rewards loc !! i
               = Some (r + configured_boost (rl_reward_boost params) name)).
  { rewrite Hboost. unfold boost_rewards.
    rewrite lookup_zip_with, Hr. simpl. rewrite Ha. simpl.
    rewrite (dot_one_hot_l (reward_boosts self) (length acts) k
               (configured_boost (rl_reward_boost params) name)).
    - reflexivity.
    - eapply lookup_lt_Some; eauto.
    - rewrite Hrb. exact Hb0. }
  split; [exact Hi|]. split; [exact Hlr|].
  intros Hnone. rewrite Hi. f_equal.
  unfold configured_boost. rewrite foldl_boost_absent by exact Hnone. lra.
Qed.

(** C8: both configuration errors are raised by the constructor: with CPE
    enabled and one of the reward network, the CPE value network and the
    CPE target network missing the constructor fails on its assertion; with
    a boost entry that names an action outside the action set it fails on
    the lookup of the name; and no training step of a constructed trainer
    raises a configuration error. *)
Theorem configuration_errors_at_construction :
  (forall q qt rn params use_gpu qc qct ms,
     calc_cpe_in_training
       (base_init params use_gpu ms None (actions params)) = true ->
     rn = None \/ qc = None \/ qct = None ->
     exists msg,
       __init__ base_init q qt rn params use_gpu qc qct ms
       = Raise (AssertionError msg)) /\
  (forall q qt rn params use_gpu qc qct ms boost k v,
     rl_reward_boost params = Some boost ->
     (k, v) ∈ boost -> k ∉ default [] (actions params) ->
     exists e,
       __init__ base_init q qt rn params use_gpu qc qct ms = Raise e /\
       (forall c,
          init_cpe (base_init params use_gpu ms None (actions params))
            (default [] (actions params)) (training_learning_rate params)
            rn qc qct = Ok c ->
          e = ValueError "not in list")) /\
  (forall q qt rn params use_gpu qc qct ms (self0 self : _DQNTrainer)
          (inputs : list (TrainInput TrainingDataPage))
          (input : TrainInput TrainingDataPage) (e : error),
     __init__ base_init q qt rn params use_gpu qc qct ms = Ok self0 ->
     train_all as_batch self0 inputs = Ok self ->
     train as_batch self input = Raise e ->
     is_config_error e = false).
Proof.
  split; [|split].
  - intros q qt rn params use_gpu qc qct ms Hon Hmissing.
    unfold __init__, init_cpe. rewrite Hon.
    destruct rn as [rnet|]; [|eexists; reflexivity].
    destruct qc as [qcn|]; [|eexists; reflexivity].
    destruct qct as [qctn|]; [|eexists; reflexivity].
    destruct Hmissing as [?|[?|?]]; discriminate.
  - intros q qt rn params use_gpu qc qct ms boost k v Hboost Hin Hk.
    unfold __init__. rewrite Hboost.
    destruct (init_cpe _ _ _ rn qc qct) as [[[[[[a b] c0] d] e0] f]|e1].
    + cbn. rewrite (fill_reward_boosts_absent _ _ _ _ _ Hin Hk). cbn.
      eexists; split; [reflexivity | intros; reflexivity].
    + cbn. eexists; split; [reflexivity|]. intros c Hc. discriminate.
  - intros q qt rn params use_gpu qc qct ms self0 self inputs input e
      Hinit Hall H.
    apply init_inv in Hinit as (_ & _ & Hready & _).
    apply train_all_frame in Hall as (_ & _ & _ & Hready').
    apply (train_Raise _ as_batch self input e (Hready' Hready) H).
Qed.

End Configuration.

(** ** The fixture at work *)

Lemma init_fixture (cpe maxq : bool) (burnin : Z) :
  __init__ (optimizer := Fixture.sgd) (Fixture.base_init cpe maxq burnin)
    (Fixture.bias_network [0; 0; 0]) (Fixture.bias_network [1; 2; 3])
    (Some (Fixture.bias_network [0; 0; 0])) Fixture.params false
    (Some (Fixture.bias_network [0; 0; 0]))
    (Some (Fixture.bias_network [4; 5; 6])) None
  = Ok (Fixture.trainer cpe maxq burnin).
Proof. destruct cpe; reflexivity. Qed.

Lemma fixture_run (cpe maxq : bool) (burnin : Z) (k : nat) :
  (k < 3)%nat ->
  exists self' rep loc,
    Fixture.run cpe maxq burnin (Fixture.batch_taking k) = Ok (self', rep, loc).
Proof.
  intros Hk.
  assert (Hcases : k = 0%nat \/ k = 1%nat \/ k = 2%nat) by lia.
  unfold Fixture.run, train, get_max_q_values, get_max_q_values_with_target,
    calculate_cpes, select_rows, select_row, masked_argmax.
  destruct Hcases as [-> | [-> | ->]]; destruct cpe, maxq;
    crunch; decide_reals; crunch; decide_reals; crunch;
    do 3 eexists; reflexivity.
Qed.

Lemma fixture_run_raises (cpe : bool) (burnin : Z) :
  Fixture.run cpe false burnin Fixture.batch_without_next_action
  = Raise PreconditionViolation.
Proof.
  unfold Fixture.run, train, get_max_q_values_with_target, select_rows,
    select_row, masked_argmax.
  crunch. decide_reals. reflexivity.
Qed.

Lemma softmax_of_updated_values_differs :
  masked_softmax [[0; 0; 0]] [[1; 1; 1]] 1
  <> masked_softmax [[0; 6; 0]] [[1; 1; 1]] 1.
Proof.
  unfold masked_softmax, masked_softmax_row, masked_exp. simpl.
  destruct (Req_dec_T 1 0) as [H10|_]; [lra|].
  intros Heq. injection Heq as Hfirst _ _.
  pose proof (exp_pos (0 / 1)) as Ha.
  assert (Hb : exp (0 / 1) < exp (6 / 1)) by (apply exp_increasing; lra).
  set (a := exp (0 / 1)) in *. set (b := exp (6 / 1)) in *.
  apply (f_equal (fun x => x * (a + (a + (a + 0))) * (a + (b + (a + 0)))))
    in Hfirst.
  field_simplify in Hfirst; nra.
Qed.

(** C1, as stated, fails on the fixture: in a burn-in step on the batch, in
    max-action mode, the snapshot CPE reads and reports is the output
    [[0; 0; 0]] of the network before its optimizer step, and the
    propensities are its softmax, while the updated network of the same
    step outputs [[0; 6; 0]], whose softmax is another distribution. *)
Lemma snapshot_is_not_of_updated_network :
  exists self' rep loc,
    Fixture.run true true 5 Fixture.batch = Ok (self', rep, loc) /\
    all_action_scores self' = Some [[0; 0; 0]] /\
    model_values rep = [[0; 0; 0]] /\
    model_propensities rep
      = Some (masked_softmax [[0; 0; 0]] [[1; 1; 1]] 1) /\
    call (q_network self') (state (training_input Fixture.batch))
      = [[0; 6; 0]] /\
    model_values rep
      <> call (q_network self') (state (training_input Fixture.batch)) /\
    model_propensities rep
      <> Some (masked_softmax
                 (call (q_network self')
                    (state (training_input Fixture.batch)))
                 (possible_actions_mask (training_input Fixture.batch)) 1).
Proof.
  unfold Fixture.run, train, get_max_q_values, get_max_q_values_with_target,
    calculate_cpes, select_rows, select_row, masked_argmax.
  crunch. decide_reals. crunch. decide_reals. crunch.
  do 3 eexists. split; [reflexivity|].
  cbn [all_action_scores model_values model_propensities q_network].
  split; [reflexivity|]. split; [reflexivity|]. split; [reflexivity|].
  match goal with
  | |- ?updated = _ /\ _ => assert (Hupd : updated = [[0; 6; 0]])
  end.
  { unfold call, mse_loss, Fixture.rate_one. simpl. repeat f_equal; lra. }
  split; [exact Hupd|]. rewrite Hupd. split.
  - intros Heq. injection Heq. lra.
  - intros Heq. apply (inj Some) in Heq.
    exact (softmax_of_updated_values_differs Heq).
Qed.

(** ** The theorems on the fixture *)

(** C1 (as amended) on the fixture: the reported model values are the
    output of the network before its step. *)
Lemma cpe_reads_forward_snapshot_witness :
  exists self' rep loc,
    Fixture.run true true 5 Fixture.batch = Ok (self', rep, loc) /\
    model_values rep = [[0; 0; 0]].
Proof.
  destruct (fixture_run true true 5 1 ltac:(lia)) as (s & r & l & H).
  exists s, r, l. split; [exact H|]. unfold Fixture.run in H.
  destruct (cpe_reads_forward_snapshot _ Fixture.as_batch _ _ _ _ _ H)
    as (s1 & res & _ & _ & _ & _ & _ & Hmv & _).
  exact Hmv.
Defined.

(** The selector of the fixture on next action A, and on every action
    allowed. *)
Lemma fixture_select_on_policy :
  select_row true [0; 0; 0] [1; 2; 3] (one_hot 3 0) = Ok (1, 0%nat).
Proof.
  unfold select_row, masked_argmax. simpl. decide_reals. reflexivity.
Qed.

(** C2 on the fixture.  Past burn-in the target of the sample is its shaped
    reward, 1 plus the boost of action B, plus 0.9 times the value 1 that the
    target network gives to next action A; in burn-in it is the shaped
    reward. *)
Lemma target_construction_witness :
  (exists self' rep loc,
     Fixture.run true false 0 Fixture.batch = Ok (self', rep, loc) /\
     minibatch (super self') = 1%Z /\
     next_q_values loc !! 0%nat = Some 1 /\
     target_q_values loc !! 0%nat
       = Some (1 + dot (one_hot 3 1) [0; 2; 0] + 9 / 10 * (1 * 1))) /\
  (exists self' rep loc,
     Fixture.run true false 5 Fixture.batch = Ok (self', rep, loc) /\
     target_q_values loc !! 0%nat = Some (1 + dot (one_hot 3 1) [0; 2; 0])).
Proof.
  split.
  - destruct (fixture_run true false 0 1 ltac:(lia)) as (s & r & l & H).
    exists s, r, l. split; [exact H|]. unfold Fixture.run in H.
    destruct (target_construction _ Fixture.as_batch _ _ _ _ _ H)
      as (Hstep & _ & _ & Hboot & _).
    split; [exact Hstep|].
    destruct (Hboot ltac:(simpl; lia) 0%nat 1 (one_hot 3 1) true
                [0; 0; 0] [1; 2; 3] (one_hot 3 0)
                eq_refl eq_refl eq_refl eq_refl eq_refl eq_refl)
      as (v & idx & Hrow & Hv & Htgt & _).
    cbn [double_q_learning Fixture.trainer] in Hrow.
    rewrite fixture_select_on_policy in Hrow. injection Hrow as <- <-.
    split; [exact Hv | exact Htgt].
  - destruct (fixture_run true false 5 1 ltac:(lia)) as (s & r & l & H).
    exists s, r, l. split; [exact H|]. unfold Fixture.run in H.
    destruct (target_construction _ Fixture.as_batch _ _ _ _ _ H)
      as (_ & _ & Hburn & _).
    exact (Hburn ltac:(simpl; lia) 0%nat 1 (one_hot 3 1) eq_refl eq_refl).
Defined.

(** C3 on the fixture: next action A selects the first target value. *)
Lemma on_policy_selection_witness :
  exists self' rep loc,
    Fixture.run true false 0 Fixture.batch = Ok (self', rep, loc) /\
    next_q_values loc !! 0%nat = Some (dot [1; 2; 3] (one_hot 3 0)) /\
    max_q_action_idxs loc !! 0%nat = Some (argmax (one_hot 3 0)) /\
    argmax (one_hot 3 0) = 0%nat.
Proof.
  destruct (fixture_run true false 0 1 ltac:(lia)) as (s & r & l & H).
  exists s, r, l. split; [exact H|]. unfold Fixture.run in H.
  exact (on_policy_selection _ Fixture.as_batch _ _ _ _ _ H eq_refl
           0%nat 3%nat 0%nat [0; 0; 0] [1; 2; 3]
           eq_refl ltac:(lia) eq_refl eq_refl eq_refl eq_refl).
Defined.


Lemma two_metrics_run (burnin : Z) :
  exists self' rep loc, TwoMetrics.run burnin = Ok (self', rep, loc).
Proof.
  unfold TwoMetrics.run, train, get_max_q_values,
    get_max_q_values_with_target, calculate_cpes, select_rows, select_row,
    masked_argmax.
  crunch; decide_reals; crunch; decide_reals; crunch.
  do 3 eexists; reflexivity.
Qed.

(** C5 on the fixture with two metrics, raw reward 1 and metric 5, where the
    selector returns action A: past burn-in the targets are
    [1 + 0.9 * 4] and [5 + 0.9 * 7], with the bootstrap values read at [0 + 0]
    and [3 + 0] of the CPE target estimates; in burn-in they are 1 and 5. *)
Lemma cpe_value_targets_witness :
  (exists self' rep loc cl trow,
     TwoMetrics.run 0 = Ok (self', rep, loc) /\
     cpe_locals loc = Some cl /\
     metric_target_q_values cl = [[4; 5; 6; 7; 8; 9]] /\
     target_metric_q_values cl !! 0%nat = Some trow /\
     trow !! 0%nat = Some (1 + 9 / 10 * (4 * 1)) /\
     trow !! 1%nat = Some (5 + 9 / 10 * (7 * 1))) /\
  (exists self' rep loc cl,
     TwoMetrics.run 5 = Ok (self', rep, loc) /\
     cpe_locals loc = Some cl /\
     target_metric_q_values cl !! 0%nat = Some [1; 5]).
Proof.
  split.
  - destruct (two_metrics_run 0) as (s & r & l & H).
    pose proof H as H0. unfold TwoMetrics.run in H.
    destruct (cpe_value_targets _ Fixture.as_batch _ _ _ _ _ H eq_refl)
      as (cl & qct & qc & c_opt & offsets & _ & Hcl & Hqct & _ & _ & Hoffs &
          Hmt & _ & _ & _ & Hboot & _).
    injection Hqct as <-. injection Hoffs as <-.
    destruct (Hboot ltac:(simpl; lia) 0%nat 0%nat 0%nat 1 1 [5]
                (one_hot 3 1) [4; 5; 6; 7; 8; 9] [0; 0; 0] [1; 2; 3]
                (one_hot 3 0) true
                eq_refl eq_refl eq_refl eq_refl eq_refl eq_refl eq_refl
                eq_refl eq_refl eq_refl)
      as (vs0 & a0 & v0 & trow & Hsel0 & Hv0 & Htrow & Ht0).
    destruct (Hboot ltac:(simpl; lia) 0%nat 1%nat 3%nat 1 5 [5]
                (one_hot 3 1) [4; 5; 6; 7; 8; 9] [0; 0; 0] [1; 2; 3]
                (one_hot 3 0) true
                eq_refl eq_refl eq_refl eq_refl eq_refl eq_refl eq_refl
                eq_refl eq_refl eq_refl)
      as (vs1 & a1 & v1 & trow1 & Hsel1 & Hv1 & Htrow1 & Ht1).
    cbn [double_q_learning TwoMetrics.trainer] in Hsel0, Hsel1.
    rewrite fixture_select_on_policy in Hsel0, Hsel1.
    injection Hsel0 as <- <-. injection Hsel1 as <- <-.
    injection Hv0 as <-. injection Hv1 as <-.
    rewrite Htrow in Htrow1. injection Htrow1 as <-.
    exists s, r, l, cl, trow.
    split; [exact H0|]. split; [exact Hcl|]. split; [exact Hmt|].
    split; [exact Htrow|]. split; [exact Ht0 | exact Ht1].
  - destruct (two_metrics_run 5) as (s & r & l & H).
    pose proof H as H0. unfold TwoMetrics.run in H.
    destruct (cpe_value_targets _ Fixture.as_batch _ _ _ _ _ H eq_refl)
      as (cl & qct & qc & c_opt & offsets & _ & Hcl & _ & _ & _ & _ &
          _ & _ & _ & Hburn & _).
    exists s, r, l, cl. split; [exact H0|]. split; [exact Hcl|].
    exact (Hburn ltac:(simpl; lia) 0%nat 1 [5] eq_refl eq_refl).
Defined.

(** C6 on the fixture, on-policy: the propensities of the sample sum to 1
    and vanish off the action taken. *)
Lemma propensities_are_masked_softmax_witness :
  exists self' rep loc props p,
    Fixture.run true false 0 Fixture.batch = Ok (self', rep, loc) /\
    model_propensities rep = Some props /\
    props !! 0%nat = Some p /\
    row_sum p = 1 /\ valid_sum p (one_hot 3 1) = 1 /\
    p !! 0%nat = Some 0 /\ p !! 2%nat = Some 0.
Proof.
  destruct (fixture_run true false 0 1 ltac:(lia)) as (s & r & l & H).
  pose proof H as H0. unfold Fixture.run in H.
  destruct (propensities_are_masked_softmax _ Fixture.as_batch _ _ _ _ _ H
              eq_refl ltac:(simpl; lra))
    as (props & Hprops & _ & Hrows).
  destruct (Hrows 0%nat [0; 0; 0] (one_hot 3 1) eq_refl eq_refl eq_refl)
    as (p & Hp & Hzero & Hdist).
  destruct (Hdist ltac:(exists 1%nat, 1; split; [reflexivity | lra]))
    as (Hsum & Hvalid).
  exists s, r, l, props, p.
  repeat (split; [assumption|]).
  split; apply Hzero; reflexivity.
Defined.

(** C9 on the fixture with CPE disabled. *)
Lemma calculate_cpes_disabled_witness :
  calculate_cpes (optimizer := Fixture.sgd)
    (autograd := Fixture.central_differences)
    (Fixture.trainer false true 0) Fixture.batch [[0]] [1%nat] [0%nat]
    [9 / 10] [1]
  = Ok (Fixture.trainer false true 0, (None, None, None), None).
Proof.
  exact (proj1 (calculate_cpes_disabled TrainingBatch Fixture.as_batch
                  (Fixture.trainer false true 0) eq_refl)
           Fixture.batch [[0]] [1%nat] [0%nat] [9 / 10] [1]).
Defined.

(** C7 on the fixture: actions A, B, C with boost 2 for B and raw reward 1;
    taking B yields 1 + 2, taking A or C yields 1. *)
Lemma reward_shaping_witness :
  exists lA lB lC,
    (exists s r, Fixture.run true false 0 (Fixture.batch_taking 0)
                 = Ok (s, r, lA)) /\
    (exists s r, Fixture.run true false 0 (Fixture.batch_taking 1)
                 = Ok (s, r, lB)) /\
    (exists s r, Fixture.run true false 0 (Fixture.batch_taking 2)
                 = Ok (s, r, lC)) /\
    boosted_rewards lA !! 0%nat = Some 1 /\
    boosted_rewards lB !! 0%nat = Some (1 + 2) /\
    boosted_rewards lC !! 0%nat = Some 1.
Proof.
  destruct (fixture_run true false 0 0 ltac:(lia)) as (sA & rA & lA & HA).
  destruct (fixture_run true false 0 1 ltac:(lia)) as (sB & rB & lB & HB).
  destruct (fixture_run true false 0 2 ltac:(lia)) as (sC & rC & lC & HC).
  assert (Hnd : NoDup ["A"; "B"; "C"]%string).
  { repeat (apply NoDup_cons; split;
              [rewrite ?elem_of_cons, elem_of_nil; intuition discriminate|]).
    apply NoDup_nil_2. }
  exists lA, lB, lC.
  split; [eauto|]. split; [eauto|]. split; [eauto|].
  unfold Fixture.run in HA, HB, HC.
  split; [|split].
  - refine (proj2 (proj2 (reward_shaping TrainingBatch Fixture.as_batch _
              _ _ _ _ _ _ _ _ _ _ _ [] _ _ _
              (init_fixture true false 0) eq_refl HA Hnd
              0%nat 0%nat "A"%string 1 eq_refl eq_refl eq_refl)) _).
    simpl. rewrite elem_of_cons, elem_of_nil. intuition discriminate.
  - exact (proj1 (reward_shaping TrainingBatch Fixture.as_batch _
              _ _ _ _ _ _ _ _ _ _ _ [] _ _ _
              (init_fixture true false 0) eq_refl HB Hnd
              0%nat 1%nat "B"%string 1 eq_refl eq_refl eq_refl)).
  - refine (proj2 (proj2 (reward_shaping TrainingBatch Fixture.as_batch _
              _ _ _ _ _ _ _ _ _ _ _ [] _ _ _
              (init_fixture true false 0) eq_refl HC Hnd
              0%nat 2%nat "C"%string 1 eq_refl eq_refl eq_refl)) _).
    simpl. rewrite elem_of_cons, elem_of_nil. intuition discriminate.
Defined.

(** C8 on the fixture: a missing reward network and an unknown boosted
    action fail the constructor; a failing step raises no configuration
    error. *)
Lemma configuration_errors_at_construction_witness :
  (exists msg,
     __init__ (optimizer := Fixture.sgd) (Fixture.base_init true false 0)
       (Fixture.bias_network [0; 0; 0]) (Fixture.bias_network [1; 2; 3])
       None Fixture.params false
       (Some (Fixture.bias_network [0; 0; 0]))
       (Some (Fixture.bias_network [4; 5; 6])) None
     = Raise (AssertionError msg)) /\
  __init__ (optimizer := Fixture.sgd) (Fixture.base_init true false 0)
    (Fixture.bias_network [0; 0; 0]) (Fixture.bias_network [1; 2; 3])
    (Some (Fixture.bias_network [0; 0; 0]))
    Fixture.params_with_unknown_boost false
    (Some (Fixture.bias_network [0; 0; 0]))
    (Some (Fixture.bias_network [4; 5; 6])) None
  = Raise (ValueError "not in list") /\
  is_config_error PreconditionViolation = false.
Proof.
  destruct (configuration_errors_at_construction
              (optimizer := Fixture.sgd)
              (autograd := Fixture.central_differences)
              TrainingBatch Fixture.as_batch (Fixture.base_init true false 0))
    as (Hassert & Hboost & Htrain).
  split; [|split].
  - apply Hassert; [reflexivity | left; reflexivity].
  - destruct (Hboost (Fixture.bias_network [0; 0; 0])
                (Fixture.bias_network [1; 2; 3])
                (Some (Fixture.bias_network [0; 0; 0]))
                Fixture.params_with_unknown_boost false
                (Some (Fixture.bias_network [0; 0; 0]))
                (Some (Fixture.bias_network [4; 5; 6])) None
                [("B"%string, 2); ("D"%string, 1)] "D"%string 1 eq_refl)
      as (e & He & Hvalue).
    + rewrite !elem_of_cons. right. left. reflexivity.
    + simpl. rewrite !elem_of_cons, elem_of_nil. intuition discriminate.
    + rewrite He. f_equal. eapply Hvalue. reflexivity.
  - exact (Htrain _ _ _ _ _ _ _ _ _ _ [] (Batch Fixture.batch_without_next_action)
             PreconditionViolation (init_fixture true false 0) eq_refl
             (fixture_run_raises true 0)).
Defined.

(** ** Further properties of the constructor *)

Section MoreConstruction.
Context {optimizer : Optimizer} {autograd : Autograd}.
Variable TrainingDataPage : Type.
Variable as_batch : TrainingDataPage -> TrainingBatch.
Variable base_init :
  DiscreteActionModelParameters -> bool -> option (list string) ->
  option (list R -> list R) -> option (list string) -> DQNTrainerBase.

Lemma arange_fuel_multiples (A fuel m0 M : nat) :
  (0 < A)%nat -> (m0 <= M)%nat -> (M - m0 <= fuel)%nat ->
  arange_fuel fuel (m0 * A) (M * A) A
  = (fun m => (m * A)%nat) <$> seq m0 (M - m0).
Proof.
  intros HA. revert m0.
  induction fuel as [|fuel IH]; intros m0 Hle Hfuel.
  - replace (M - m0)%nat with 0%nat by lia. reflexivity.
  - simpl. destruct (Nat.ltb_spec (m0 * A) (M * A)) as [Hlt|Hge].
    + assert (Hm : (m0 < M)%nat) by nia.
      replace (M - m0)%nat with (S (M - S m0)) by lia.
      simpl. f_equal.
      replace (m0 * A + A)%nat with (S m0 * A)%nat by lia.
      apply IH; lia.
    + assert (Hm : m0 = M) by nia. subst m0.
      replace (M - M)%nat with 0%nat by lia. reflexivity.
Qed.

Lemma arange_multiples (M A : nat) :
  (0 < A)%nat ->
  arange (M * A) A = Ok ((fun m => (m * A)%nat) <$> seq 0 M).
Proof.
  intros HA. unfold arange. destruct A as [|a]; [lia|].
  f_equal.
  pose proof (arange_fuel_multiples (S a) (M * S a) 0 M HA ltac:(lia)
                ltac:(nia)) as H.
  rewrite Nat.sub_0_r in H. exact H.
Qed.

Lemma arange_Ok_step (stop step : nat) (l : list nat) :
  arange stop step = Ok l -> (0 < step)%nat.
Proof. destruct step; simpl; [discriminate | lia]. Qed.

Lemma train_offsets (self self' : _DQNTrainer)
    (input : TrainInput TrainingDataPage) (rep : Report) (loc : TrainLocals) :
  train as_batch self input = Ok (self', rep, loc) ->
  reward_idx_offsets self' = reward_idx_offsets self /\
  super self' = set_minibatch (super self) (minibatch (super self) + 1).
Proof.
  intros H. apply train_inv in H. cbv zeta in H.
  destruct H as (self1 & grads & res & scores & _ & _ & _ & _ & _ & _ &
    Hsuper & _ & _ & _ & _ & _ & _ & _ & _ & Hoffs & _ & _ & _ & Hcpe & _).
  apply calculate_cpes_frame in Hcpe
    as (Hs & _ & _ & _ & _ & _ & _ & _ & _ & Hoffs').
  split; congruence.
Qed.

Lemma set_minibatch_same (b : DQNTrainerBase) :
  set_minibatch b (minibatch b + 0) = b.
Proof. destruct b. unfold set_minibatch. cbn. rewrite Z.add_0_r. reflexivity. Qed.

Lemma set_minibatch_twice (b : DQNTrainerBase) (n m : Z) :
  set_minibatch (set_minibatch b n) m = set_minibatch b m.
Proof. reflexivity. Qed.

Lemma train_all_offsets (self0 self : _DQNTrainer)
    (inputs : list (TrainInput TrainingDataPage)) :
  train_all as_batch self0 inputs = Ok self ->
  reward_idx_offsets self = reward_idx_offsets self0 /\
  super self
  = set_minibatch (super self0)
      (minibatch (super self0) + Z.of_nat (length inputs)).
Proof.
  revert self0; induction inputs as [|input inputs IH]; intros self0 H.
  - injection H as <-. split; [reflexivity|].
    symmetry. apply set_minibatch_same.
  - simpl in H. apply rbind_Ok in H as ([[s1 rep] loc] & Hstep & H).
    apply train_offsets in Hstep as (Hoffs & Hsuper).
    apply IH in H as (Hoffs' & Hsuper').
    split; [congruence|].
    rewrite Hsuper', Hsuper, set_minibatch_twice.
    cbn [minibatch set_minibatch length]. f_equal. lia.
Qed.

(** The metric offset table: with CPE enabled, a constructed trainer holds,
    before and after any number of steps, one offset per scored metric, the
    offset of metric [m] being [m] times the number of actions. *)
Theorem offsets_are_multiples_of_num_actions q qt rn params use_gpu qc qct ms
    (self0 self : _DQNTrainer) (inputs : list (TrainInput TrainingDataPage)) :
  __init__ base_init q qt rn params use_gpu qc qct ms = Ok self0 ->
  train_all as_batch self0 inputs = Ok self ->
  calc_cpe_in_training (super self0) = true ->
  reward_idx_offsets self
  = Some ((fun m => (m * num_actions self0)%nat)
            <$> seq 0 (length (metrics_to_score (super self0)))).
Proof.
  intros Hinit Hall Hon.
  apply train_all_offsets in Hall as (-> & _).
  unfold __init__ in Hinit.
  apply rbind_Ok in Hinit as ([[[[[rn' ro] qc'] qct'] co] offs] & Hcpe & H).
  apply rbind_Ok in H as (boosts & _ & H). injection H as <-.
  cbn [super reward_idx_offsets num_actions _actions] in *.
  unfold init_cpe in Hcpe. rewrite Hon in Hcpe.
  destruct rn as [rnet|]; [|discriminate].
  destruct qc as [qcn|]; [|discriminate].
  destruct qct as [qctn|]; [|discriminate].
  apply rbind_Ok in Hcpe as (o & Harange & Hcpe).
  injection Hcpe as <- <- <- <- <- <-.
  pose proof (arange_Ok_step _ _ _ Harange) as HA.
  rewrite (arange_multiples _ _ HA) in Harange. injection Harange as <-.
  reflexivity.
Qed.

Lemma rmapM_total {A B} (f : A -> result B) (l : list A) :
  (forall a, a ∈ l -> exists b, f a = Ok b) ->
  exists bs, rmapM f l = Ok bs.
Proof.
  induction l as [|a l IH]; intros Hf; [eexists; reflexivity|].
  destruct (Hf a ltac:(left)) as (b & Hb).
  destruct IH as (bs & Hbs); [intros a' Ha'; apply Hf; right; exact Ha'|].
  exists (b :: bs). simpl. rewrite Hb. simpl. rewrite Hbs. reflexivity.
Qed.

Lemma rmapM_length {A B} (f : A -> result B) (l : list A) (bs : list B) :
  rmapM f l = Ok bs -> length bs = length l.
Proof.
  revert bs; induction l as [|a l IH]; intros bs H.
  - injection H as <-. reflexivity.
  - simpl in H. apply rbind_Ok in H as (b & _ & H).
    apply rbind_Ok in H as (bs0 & Hbs0 & H). injection H as <-.
    simpl. f_equal. apply IH. exact Hbs0.
Qed.

Lemma gather_row_total (row : list R) (idxs : list nat) :
  (forall j, j ∈ idxs -> (j < length row)%nat) ->
  exists vals, gather_row row idxs = Ok vals.
Proof.
  intros Hin. apply rmapM_total. intros j Hj.
  destruct (lookup_lt_is_Some_2 row j (Hin j Hj)) as [v Hv].
  exists v. rewrite Hv. reflexivity.
Qed.

Lemma gather_rows_total (t : Tensor) (offsets idxs : list nat) :
  (length idxs <= length t)%nat ->
  (forall i row a off,
     t !! i = Some row -> idxs !! i = Some a -> off ∈ offsets ->
     (off + a < length row)%nat) ->
  exists g, gather_rows t offsets idxs = Ok g /\ length g = length idxs.
Proof.
  revert idxs; induction t as [|row t IH]; intros idxs Hlen Hin.
  - destruct idxs; [|simpl in Hlen; lia]. exists []. auto.
  - destruct idxs as [|a idxs]; [exists []; auto|].
    simpl.
    destruct (gather_row_total row ((fun off => (off + a)%nat) <$> offsets))
      as (r & Hr).
    { intros j Hj. apply list_elem_of_fmap in Hj as (off & -> & Hoff).
      apply (Hin 0%nat row a off); auto. }
    destruct (IH idxs) as (g & Hg & Hlg).
    { simpl in Hlen. lia. }
    { intros i row' a' off Hrow Ha Hoff. apply (Hin (S i) row' a' off); auto. }
    rewrite Hr. simpl. rewrite Hg. simpl.
    exists (r :: g). split; [reflexivity|]. simpl. lia.
Qed.

(** Gathering with the offset table of the constructor (lines 211-213 and
    222-228).  An index column with more rows than the estimates is
    rejected.  Otherwise, on estimates whose rows hold [M] blocks of [A]
    values and action indices below [A], the gather raises no error, has
    one row per index, and reads for metric [m] and action [a] the entry [a]
    of block [m]. *)
Theorem gather_reads_metric_blocks (t : Tensor) (M A : nat) (idxs : list nat) :
  (forall i row, t !! i = Some row -> (M * A <= length row)%nat) ->
  (forall i a, idxs !! i = Some a -> (a < A)%nat) ->
  ((length t < length idxs)%nat ->
   gather_offsets t ((fun m => (m * A)%nat) <$> seq 0 M) idxs
   = Raise (RuntimeError "Size does not match")) /\
  ((length idxs <= length t)%nat ->
   exists g,
     gather_offsets t ((fun m => (m * A)%nat) <$> seq 0 M) idxs = Ok g /\
     length g = length idxs /\
     forall (i m a : nat) (row : list R),
       t !! i = Some row -> idxs !! i = Some a -> (m < M)%nat ->
       exists vals v,
         g !! i = Some vals /\ length vals = M /\
         vals !! m = Some v /\ row !! (m * A + a)%nat = Some v /\
         (m * A <= m * A + a < (m + 1) * A)%nat).
Proof.
  intros Hwide Hidx. split.
  { intros Hlt. unfold gather_offsets.
    apply Nat.ltb_lt in Hlt. rewrite Hlt. reflexivity. }
  intros Hrows.
  destruct (gather_rows_total t ((fun m => (m * A)%nat) <$> seq 0 M) idxs Hrows)
    as (g & Hg0 & Hlen).
  { intros i row a off Hrow Ha Hoff.
    apply list_elem_of_fmap in Hoff as (m & -> & Hm).
    apply elem_of_seq in Hm.
    pose proof (Hwide i row Hrow). pose proof (Hidx i a Ha). nia. }
  assert (Hg : gather_offsets t ((fun m => (m * A)%nat) <$> seq 0 M) idxs
               = Ok g).
  { unfold gather_offsets.
    destruct (Nat.ltb_spec (length t) (length idxs)); [lia | exact Hg0]. }
  exists g. split; [exact Hg|]. split; [exact Hlen|].
  intros i m a row Hrow Ha Hm.
  destruct (gather_offsets_lookup _ _ _ _ _ _ _ Hg Hrow Ha) as (vals & Hvals & Hr).
  assert (Hoff : ((fun off => (off + a)%nat)
                    <$> ((fun m => (m * A)%nat) <$> seq 0 M)) !! m
                 = Some (m * A + a)%nat).
  { rewrite !list_lookup_fmap, lookup_seq_lt by exact Hm. reflexivity. }
  destruct (gather_row_lookup _ _ _ _ _ Hr Hoff) as (v & Hv & Hrowv).
  exists vals, v. split; [exact Hvals|]. split.
  { unfold gather_row in Hr. apply rmapM_length in Hr.
    rewrite Hr, !length_fmap, length_seq. reflexivity. }
  split; [exact Hv|]. split; [exact Hrowv|].
  pose proof (Hidx i a Ha). nia.
Qed.

Lemma list_index_total (l : list string) (k : string) :
  k ∈ l -> exists i, list_index l k = Ok i.
Proof.
  induction l as [|x l IH]; intros Hk; [inversion Hk|].
  simpl. destruct (decide (x = k)) as [->|Hne]; [eexists; reflexivity|].
  apply elem_of_cons in Hk as [Heq|Hk]; [congruence|].
  destruct (IH Hk) as (i & Hi). rewrite Hi. eexists; reflexivity.
Qed.

Lemma fill_reward_boosts_total acts boost rb :
  (forall k v, (k, v) ∈ boost -> k ∈ acts) ->
  exists rb', fill_reward_boosts acts boost rb = Ok rb'.
Proof.
  revert rb; induction boost as [|[k v] boost IH]; intros rb Hin;
    [eexists; reflexivity|].
  simpl. destruct (list_index_total acts k) as (i & Hi).
  { apply (Hin k v). left. }
  rewrite Hi. simpl. apply IH.
  intros k' v' Hk'. apply (Hin k' v'). right. exact Hk'.
Qed.

Lemma fill_reward_boosts_length acts boost rb rb' :
  fill_reward_boosts acts boost rb = Ok rb' -> length rb' = length rb.
Proof.
  revert rb; induction boost as [|[k v] boost IH]; intros rb H.
  - injection H as <-. reflexivity.
  - simpl in H. apply rbind_Ok in H as (i & _ & H).
    rewrite (IH _ H). apply length_insert.
Qed.

(** The boost vector has one entry per action, on a constructed trainer and
    after any number of steps, whatever the configured boosts. *)
Theorem reward_boosts_one_per_action q qt rn params use_gpu qc qct ms
    (self0 self : _DQNTrainer) (inputs : list (TrainInput TrainingDataPage)) :
  __init__ base_init q qt rn params use_gpu qc qct ms = Ok self0 ->
  train_all as_batch self0 inputs = Ok self ->
  length (reward_boosts self) = num_actions self /\
  num_actions self = length (default [] (actions params)).
Proof.
  intros Hinit Hall.
  apply train_all_frame in Hall as (Hrb & Hacts & _).
  apply init_inv in Hinit. cbv zeta in Hinit.
  destruct Hinit as (_ & Hacts0 & _ & Hb).
  unfold num_actions. rewrite Hrb, Hacts, Hacts0. split; [|reflexivity].
  destruct (rl_reward_boost params) as [boost|].
  - rewrite (fill_reward_boosts_length _ _ _ _ Hb). apply length_replicate.
  - rewrite Hb. apply length_replicate.
Qed.

(** Construction succeeds whenever the configuration is complete: with CPE
    disabled, or enabled with the three networks supplied and at least one
    action, and every boosted name in the action set.  The trainer then
    holds the networks it was given, the CPE attributes only when CPE is
    enabled, and neither a loss nor a snapshot yet. *)
Theorem construction_succeeds q qt rn params use_gpu qc qct ms :
  let base := base_init params use_gpu ms None (actions params) in
  let acts := default [] (actions params) in
  (calc_cpe_in_training base = true ->
   is_Some rn /\ is_Some qc /\ is_Some qct /\ (0 < length acts)%nat) ->
  (forall boost k v,
     rl_reward_boost params = Some boost -> (k, v) ∈ boost -> k ∈ acts) ->
  exists self0 : _DQNTrainer,
    __init__ base_init q qt rn params use_gpu qc qct ms = Ok self0 /\
    super self0 = base /\ _actions self0 = acts /\
    q_network self0 = q /\ q_network_target self0 = qt /\
    q_network_optimizer self0
      = optimizer_func (parameters q) (training_learning_rate params)
          (Some (training_l2_decay params)) /\
    all_action_scores self0 = None /\ loss self0 = None /\
    (calc_cpe_in_training base = true ->
     reward_network self0 = rn /\ q_network_cpe self0 = qc /\
     q_network_cpe_target self0 = qct) /\
    (calc_cpe_in_training base = false ->
     reward_network self0 = None /\ reward_network_optimizer self0 = None /\
     q_network_cpe self0 = None /\ q_network_cpe_target self0 = None /\
     q_network_cpe_optimizer self0 = None /\ reward_idx_offsets self0 = None).
Proof.
  intros base acts Hcpe Hboost.
  assert (Hfill : exists boosts,
            match rl_reward_boost params with
            | Some boost =>
                fill_reward_boosts acts boost (replicate (length acts) 0)
            | None => Ok (replicate (length acts) 0)
            end = Ok boosts).
  { destruct (rl_reward_boost params) as [boost|]; [|eexists; reflexivity].
    apply fill_reward_boosts_total. intros k v Hk.
    apply (Hboost boost k v eq_refl Hk). }
  destruct Hfill as (boosts & Hfill).
  unfold __init__. fold acts. fold base. unfold init_cpe.
  destruct (calc_cpe_in_training base) eqn:Hon.
  - destruct (Hcpe eq_refl) as ([rnet ->] & [qcn ->] & [qctn ->] & HA).
    rewrite (arange_multiples _ _ HA). cbn [rbind].
    rewrite Hfill. cbn [rbind].
    eexists; split; [reflexivity|]. cbn.
    repeat (split; [reflexivity|]).
    split; [intros _; repeat split | intros Hf; discriminate].
  - cbn [rbind]. rewrite Hfill. cbn [rbind].
    eexists; split; [reflexivity|]. cbn.
    repeat (split; [reflexivity|]).
    split; [intros Hf; discriminate | intros _; repeat split].
Qed.

(** The order of the constructor's checks: with CPE enabled, a missing
    reward network is reported first, then a missing CPE value or target
    network, each with its own message, and both before any boosted name is
    looked up, so whatever the configured boosts are. *)
Theorem construction_assertions_come_first q qt rn params use_gpu qc qct ms :
  calc_cpe_in_training (base_init params use_gpu ms None (actions params))
    = true ->
  (rn = None ->
   __init__ base_init q qt rn params use_gpu qc qct ms
   = Raise (AssertionError "reward_network is required for CPE")) /\
  (is_Some rn -> qc = None \/ qct = None ->
   __init__ base_init q qt rn params use_gpu qc qct ms
   = Raise (AssertionError
              "q_network_cpe and q_network_cpe_target are required for CPE")).
Proof.
  intros Hon. unfold __init__, init_cpe. rewrite Hon. split.
  - intros ->. reflexivity.
  - intros [rnet ->] Hmissing.
    destruct qc as [qcn|]; [|reflexivity].
    destruct qct as [qctn|]; [|reflexivity].
    destruct Hmissing; discriminate.
Qed.

End MoreConstruction.

(** ** Further properties of the training step *)

Section MoreStep.
Context {optimizer : Optimizer} {autograd : Autograd}.
Variable TrainingDataPage : Type.
Variable as_batch : TrainingDataPage -> TrainingBatch.

(** A successful step advances the step counter by exactly one and changes
    no other attribute set by the base constructor; [n] successful steps
    advance it by [n]. *)
Theorem step_counter_counts_steps (self0 self : _DQNTrainer)
    (inputs : list (TrainInput TrainingDataPage)) :
  train_all as_batch self0 inputs = Ok self ->
  minibatch (super self)
  = (minibatch (super self0) + Z.of_nat (length inputs))%Z /\
  gamma (super self) = gamma (super self0) /\
  tau (super self) = tau (super self0) /\
  reward_burnin (super self) = reward_burnin (super self0) /\
  maxq_learning (super self) = maxq_learning (super self0) /\
  rl_temperature (super self) = rl_temperature (super self0) /\
  calc_cpe_in_training (super self) = calc_cpe_in_training (super self0) /\
  metrics_to_score (super self) = metrics_to_score (super self0) /\
  q_network_loss (super self) = q_network_loss (super self0) /\
  gradient_handler (super self) = gradient_handler (super self0) /\
  forall input self' rep loc,
    train as_batch self input = Ok (self', rep, loc) ->
    minibatch (super self') = (minibatch (super self) + 1)%Z.
Proof.
  intros H. apply (train_all_offsets _ as_batch) in H as (_ & Hs).
  rewrite Hs. cbn. repeat (split; [reflexivity|]).
  intros input self' rep loc Hstep.
  apply (train_offsets _ as_batch) in Hstep as (_ & ->).
  rewrite Hs. reflexivity.
Qed.



(** [calculate_cpes] never writes the primary side of the trainer: the
    online and target Q-networks, the primary optimizer, the stored loss and
    snapshot, the step counter, the boosts and the offset table are as
    before the call, with CPE enabled or not. *)
Theorem calculate_cpes_keeps_primary (s s' : _DQNTrainer) tb st logged maxi
    disc nd res cl :
  calculate_cpes s tb st logged maxi disc nd = Ok (s', res, cl) ->
  super s' = super s /\ q_network s' = q_network s /\
  q_network_target s' = q_network_target s /\
  q_network_optimizer s' = q_network_optimizer s /\
  all_action_scores s' = all_action_scores s /\ loss s' = loss s /\
  reward_boosts s' = reward_boosts s /\ _actions s' = _actions s /\
  double_q_learning s' = double_q_learning s /\
  reward_idx_offsets s' = reward_idx_offsets s.
Proof.
  intros H.
  destruct (calculate_cpes_frame _ _ _ _ _ _ _ _ _ _ H)
    as (Hsuper & Hq & Hqt & Hopt & Hscores & Hloss & Hrb & Hacts & Hdq & Hoffs).
  repeat split; assumption.
Qed.

(** The reported TD loss is the configured loss between the Q-values the
    primary network gave, before its optimizer step, to the actions taken
    and the targets of the step; it is the loss stored on the trainer, as
    the reported model values are the stored snapshot.  On a one-hot action
    the Q-value is the entry of that action and the logged action index its
    position.  The logged rewards are the shaped rewards, the logged
    propensities those of the batch, and the two end-of-epoch fields are
    absent. *)
Theorem step_report (self self' : _DQNTrainer)
    (input : TrainInput TrainingDataPage) (rep : Report) (loc : TrainLocals) :
  train as_batch self input = Ok (self', rep, loc) ->
  let tb := batch_of as_batch input in
  let li := training_input tb in
  let q_values := zip_with dot (call (q_network self) (state li)) (action li) in
  td_loss rep
    = q_network_loss (super self) (as_rows q_values)
        (as_rows (target_q_values loc)) /\
  loss self' = Some (td_loss rep) /\
  all_action_scores self' = Some (model_values rep) /\
  logged_rewards rep = boosted_rewards loc /\
  logged_propensities rep = action_probability (extras tb) /\
  logged_values rep = None /\ model_values_on_logged_actions rep = None /\
  forall (i n k : nat) (row : list R) (v : R),
    action li !! i = Some (one_hot n k) -> (k < n)%nat ->
    call (q_network self) (state li) !! i = Some row ->
    row !! k = Some v ->
    q_values !! i = Some v /\ logged_actions rep !! i = Some k.
Proof.
  intros H tb li q_values. unfold train in H.
  fold (batch_of as_batch input) in H. fold tb in H. fold li in H.
  unfold get_detached_q_values in H. cbv beta iota zeta in H.
  apply rbind_Ok in H as ([next_q max_idxs] & Hsel & H).
  destruct (optimizer_step _ _ _) as [q_opt q_params] in H.
  apply rbind_Ok in H as ([[self2 [[r_loss m_rewards] m_prop]] cl] & Hcpe & H).
  apply rbind_Ok in H as (td & Htd & H).
  apply rbind_Ok in H as (scores & Hscores & H).
  apply rbind_Ok in H as ([_v model_idxs] & Hidx & H).
  injection H as <- <- <-.
  apply getattr_Ok in Htd, Hscores.
  pose proof (calculate_cpes_frame _ _ _ _ _ _ _ _ _ _ Hcpe)
    as (_ & _ & _ & _ & _ & Hloss & _).
  cbn [loss] in Hloss. rewrite Hloss in Htd. injection Htd as Htd.
  cbn [td_loss logged_rewards logged_propensities logged_values
       model_values_on_logged_actions model_values logged_actions
       target_q_values boosted_rewards].
  split; [symmetry; exact Htd|].
  split; [rewrite Hloss; f_equal; exact Htd|].
  split; [exact Hscores|].
  do 4 (split; [reflexivity|]).
  intros i n k row v Ha Hk Hrow Hv. split.
  - unfold q_values. rewrite lookup_zip_with, Hrow. simpl. rewrite Ha. simpl.
    f_equal. apply dot_one_hot_r; assumption.
  - rewrite list_lookup_fmap, Ha. simpl. f_equal.
    apply argmax_one_hot. exact Hk.
Qed.

(** The rewards of the CPE subsystem are the raw rewards of the batch, not
    the shaped ones: the row of a sample in the multi-metric reward tensor
    is its raw reward followed by its metrics, or the raw reward alone
    when the batch has no metrics; this tensor is the regression target
    of the CPE value model during burn-in. *)
Theorem cpe_rewards_are_raw (self self' : _DQNTrainer)
    (input : TrainInput TrainingDataPage) (rep : Report) (loc : TrainLocals) :
  train as_batch self input = Ok (self', rep, loc) ->
  calc_cpe_in_training (super self) = true ->
  let tb := batch_of as_batch input in
  let li := training_input tb in
  exists cl,
    cpe_locals loc = Some cl /\
    (metrics (extras tb) = None ->
     forall i r, reward li !! i = Some r ->
       metrics_reward_concat_real_vals cl !! i = Some [r]) /\
    (forall ms, metrics (extras tb) = Some ms ->
     forall i r mrow, reward li !! i = Some r -> ms !! i = Some mrow ->
       metrics_reward_concat_real_vals cl !! i = Some (r :: mrow)) /\
    ((minibatch (super self) + 1 < reward_burnin (super self))%Z ->
     target_metric_q_values cl = metrics_reward_concat_real_vals cl).
Proof.
  intros H Hon tb li. apply train_inv in H. cbv zeta in H.
  destruct H as (self1 & grads & res & scores & _ & _ & _ & _ & _ & _ &
    Hsuper & _ & _ & _ & _ & _ & _ & _ & _ & _ & _ & _ & _ & Hcpe & _).
  assert (Hon1 : calc_cpe_in_training (super self1) = true)
    by (rewrite Hsuper; exact Hon).
  destruct (calculate_cpes_inv _ _ _ _ _ _ _ _ _ _ Hon1 Hcpe)
    as (rnet & offsets & r_opt & qc & qct & c_opt & sc & cl & r_step &
        c_step & r_loss & rm & _ & _ & _ & _ & _ & _ & _ & Hcl & Hreal &
        _ & _ & _ & Htgt & _).
  fold tb li in Hreal.
  exists cl. split; [exact Hcl|]. split; [|split].
  - intros Hnone i r Hr. rewrite Hreal, Hnone.
    unfold as_rows. rewrite list_lookup_fmap, Hr. reflexivity.
  - intros ms Hms i r mrow Hr Hm. rewrite Hreal, Hms.
    rewrite lookup_zip_with, Hr. simpl. rewrite Hm. reflexivity.
  - intros Hlt. rewrite Hsuper in Htgt.
    cbn [minibatch reward_burnin set_minibatch] in Htgt.
    apply Z.ltb_lt in Hlt. rewrite Hlt in Htgt. exact Htgt.
Qed.

Lemma gather_row_seq (row : list R) (o n : nat) (vals : list R) :
  gather_row row (seq o n) = Ok vals ->
  length vals = n /\
  forall j, (j < n)%nat ->
    exists v, vals !! j = Some v /\ row !! (o + j)%nat = Some v.
Proof.
  intros H. split.
  - unfold gather_row in H. apply rmapM_length in H.
    rewrite H. apply length_seq.
  - intros j Hj.
    apply (gather_row_lookup _ _ _ j (o + j)%nat H).
    apply lookup_seq_lt. exact Hj.
Qed.

(** The model rewards a CPE step reports are, for every sample, the first
    metric block of the estimates of the reward network as it was before its
    own optimizer step of that call: one value per action, the value of
    action [j] read at [offsets[0] + j]. *)
Theorem model_rewards_first_block (self self' : _DQNTrainer)
    (input : TrainInput TrainingDataPage) (rep : Report) (loc : TrainLocals) :
  train as_batch self input = Ok (self', rep, loc) ->
  calc_cpe_in_training (super self) = true ->
  let li := training_input (batch_of as_batch input) in
  exists rnet offsets off0 rm,
    reward_network self = Some rnet /\
    reward_idx_offsets self = Some offsets /\ offsets !! 0%nat = Some off0 /\
    model_rewards rep = Some rm /\
    length rm = length (call rnet (state li)) /\
    forall i row, call rnet (state li) !! i = Some row ->
      exists mr,
        rm !! i = Some mr /\ length mr = num_actions self /\
        forall j, (j < num_actions self)%nat ->
          exists v, mr !! j = Some v /\ row !! (off0 + j)%nat = Some v.
Proof.
  intros H Hon li. apply train_inv in H. cbv zeta in H.
  destruct H as (self1 & grads & res & scores & _ & _ & _ & _ & _ & _ &
    Hsuper & _ & _ & _ & Hrn & _ & _ & _ & _ & Hoffs & _ & Hacts & _ &
    Hcpe & _ & _ & _ & Hmr & _).
  unfold calculate_cpes in Hcpe. rewrite Hsuper in Hcpe.
  cbn [calc_cpe_in_training set_minibatch] in Hcpe.
  rewrite Hon in Hcpe. cbn [negb] in Hcpe. cbv iota in Hcpe.
  apply rbind_Ok in Hcpe as (rnet & Hrnet & Hcpe).
  apply rbind_Ok in Hcpe as (offsets & Hoff & Hcpe).
  apply rbind_Ok in Hcpe as (est & Hest & Hcpe).
  apply rbind_Ok in Hcpe as (r_opt & Hropt & Hcpe).
  destruct (optimizer_step r_opt _ _) as [r_opt' r_params].
  apply rbind_Ok in Hcpe as (qc & Hqc & Hcpe).
  apply rbind_Ok in Hcpe as (mq & Hmq & Hcpe).
  apply rbind_Ok in Hcpe as (qct & Hqct & Hcpe).
  apply rbind_Ok in Hcpe as (maxm & Hmaxm & Hcpe).
  apply rbind_Ok in Hcpe as (c_opt & Hcopt & Hcpe).
  destruct (optimizer_step c_opt _ _) as [c_opt' c_params].
  apply rbind_Ok in Hcpe as (sc & Hsc & Hcpe).
  apply rbind_Ok in Hcpe as (off0 & Hoff0 & Hcpe).
  apply rbind_Ok in Hcpe as (rm & Hrm & Hcpe).
  injection Hcpe as _ <- _.
  apply getattr_Ok in Hrnet, Hoff.
  rewrite Hrn in Hrnet. rewrite Hoffs in Hoff.
  exists rnet, offsets, off0, rm.
  split; [exact Hrnet|]. split; [exact Hoff|]. split.
  { destruct (offsets !! 0%nat); [congruence | discriminate]. }
  split; [rewrite Hmr; reflexivity|].
  split; [exact (rmapM_length _ _ _ Hrm)|].
  intros i row Hrow.
  destruct (rmapM_lookup _ _ _ _ _ Hrm Hrow) as (mr & Hmri & Hg).
  exists mr. split; [exact Hmri|].
  apply gather_row_seq in Hg. unfold num_actions in *.
  rewrite Hacts in Hg. exact Hg.
Qed.

End MoreStep.

(** ** The unimplemented time-difference feature *)

Section SeqNumDiff.
Context {optimizer : Optimizer} {autograd : Autograd}.
Variable TrainingDataPage : Type.
Variable as_batch : TrainingDataPage -> TrainingBatch.

Lemma calculate_cpes_flag (s : _DQNTrainer) (flag : bool) tb st logged maxi
    disc nd :
  calculate_cpes (with_super s (set_use_seq_num_diff (super s) flag))
    tb st logged maxi disc nd
  = match calculate_cpes s tb st logged maxi disc nd with
    | Ok (s', res, cl) =>
        Ok (with_super s' (set_use_seq_num_diff (super s') flag), res, cl)
    | Raise e => Raise e
    end.
Proof.
  unfold calculate_cpes.
  cbn [super with_super set_use_seq_num_diff calc_cpe_in_training
       reward_network reward_idx_offsets reward_network_optimizer
       q_network_cpe q_network_cpe_target q_network_cpe_optimizer
       all_action_scores minibatch reward_burnin q_network_loss
       maxq_learning rl_temperature].
  destruct (calc_cpe_in_training (super s)); cbn [negb]; [|reflexivity].
  destruct (getattr "reward_network" (reward_network s)) as [rnet|];
    [cbn [rbind]|reflexivity].
  destruct (getattr "reward_idx_offsets" (reward_idx_offsets s)) as [offs|];
    [cbn [rbind]|reflexivity].
  destruct (gather_offsets (call rnet st) offs logged) as [el|];
    [cbn [rbind]|reflexivity].
  destruct (getattr "reward_network_optimizer" (reward_network_optimizer s))
    as [ro|]; [cbn [rbind]|reflexivity].
  destruct (optimizer_step ro _ _) as [ro' rp].
  destruct (getattr "q_network_cpe" (q_network_cpe s)) as [qc|];
    [cbn [rbind]|reflexivity].
  destruct (gather_offsets (call qc st) offs logged) as [mq|];
    [cbn [rbind]|reflexivity].
  destruct (getattr "q_network_cpe_target" (q_network_cpe_target s))
    as [qct|]; [cbn [rbind]|reflexivity].
  destruct (gather_offsets (call qct st) offs maxi) as [mm|];
    [cbn [rbind]|reflexivity].
  destruct (getattr "q_network_cpe_optimizer" (q_network_cpe_optimizer s))
    as [co|]; [cbn [rbind]|reflexivity].
  destruct (optimizer_step co _ _) as [co' cp].
  destruct (getattr "all_action_scores" (all_action_scores s)) as [sc|];
    [cbn [rbind]|reflexivity].
  destruct (offs !! 0%nat) as [off0|]; [cbn [rbind]|reflexivity].
  unfold num_actions. cbn [_actions with_super].
  match goal with
  | |- context [rmapM ?f ?l] => destruct (rmapM f l) as [rm|]
  end; reflexivity.
Qed.

(** The flag [use_seq_num_diff_as_time_diff] changes nothing but the log: a
    step with the flag set to [flag] fails or succeeds as the step of the
    same trainer does, with the same report, the same local values and the
    same trainer up to the flag, and it logs the warning exactly when the
    flag is set. *)
Theorem seq_num_diff_flag_only_warns (self : _DQNTrainer) (flag : bool)
    (input : TrainInput TrainingDataPage) :
  train as_batch (with_super self (set_use_seq_num_diff (super self) flag))
    input
  = match train as_batch self input with
    | Ok (s, rep, loc) =>
        Ok (with_super s (set_use_seq_num_diff (super s) flag), rep,
            set_warnings loc
              (if flag
               then ["_dqn_trainer has not implemented use_seq_num_diff_as_time_diff feature"%string]
               else []))
    | Raise e => Raise e
    end.
Proof.
  unfold train, get_detached_q_values.
  cbn [super with_super set_use_seq_num_diff set_minibatch maxq_learning
       double_q_learning q_network q_network_target reward_boosts
       minibatch reward_burnin gamma q_network_loss gradient_handler
       q_network_optimizer use_seq_num_diff_as_time_diff].
  cbv beta iota zeta.
  match goal with
  | |- rbind ?m _ = match rbind ?m _ with _ => _ end =>
      destruct m as [[next_q max_idxs]|e]
  end; cbn [rbind]; [|reflexivity].
  match goal with
  | |- context [optimizer_step ?a ?b ?c] =>
      destruct (optimizer_step a b c) as [q_opt q_params]
  end.
  match goal with
  | |- rbind (calculate_cpes ?s1' ?tb ?st ?l ?m ?d ?n) _
       = match rbind (calculate_cpes ?s1 _ _ _ _ _ _) _ with _ => _ end =>
      change s1' with (with_super s1 (set_use_seq_num_diff (super s1) flag));
      rewrite (calculate_cpes_flag s1 flag tb st l m d n);
      destruct (calculate_cpes s1 tb st l m d n)
        as [[[s2 [[rl mr] mp]] cl]|e]
  end; cbn [rbind]; [|reflexivity].
  cbn [loss all_action_scores with_super double_q_learning super
       set_use_seq_num_diff maxq_learning].
  destruct (getattr "loss" (loss s2)) as [td|]; cbn [rbind]; [|reflexivity].
  destruct (getattr "all_action_scores" (all_action_scores s2)) as [sc|];
    cbn [rbind]; [|reflexivity].
  match goal with
  | |- rbind ?m _ = match rbind ?m _ with _ => _ end =>
      destruct m as [[v idxs]|e]
  end; cbn [rbind]; reflexivity.
Qed.

End SeqNumDiff.

(** ** Isolation of the updates *)

Section Isolation.
Context {optimizer : Optimizer} {autograd : Autograd}.
Variable TrainingDataPage : Type.
Variable as_batch : TrainingDataPage -> TrainingBatch.

(** The update of the reward network, lines 208-219. *)
Lemma reward_model_step (self self' : _DQNTrainer)
    (input : TrainInput TrainingDataPage) (rep : Report) (loc : TrainLocals) :
  train as_batch self input = Ok (self', rep, loc) ->
  calc_cpe_in_training (super self) = true ->
  let tb := batch_of as_batch input in
  let li := training_input tb in
  let real :=
    match metrics (extras tb) with
    | None => as_rows (reward li)
    | Some ms => zip_with (fun r m => r :: m) (reward li) ms
    end in
  exists rnet offsets r_opt est,
    reward_network self = Some rnet /\
    reward_idx_offsets self = Some offsets /\
    reward_network_optimizer self = Some r_opt /\
    gather_offsets (call rnet (state li)) offsets (argmax <$> action li)
      = Ok est /\
    let step :=
      optimizer_step r_opt (parameters rnet)
        (grad (gathered_loss mse_loss rnet (state li) offsets
                 (argmax <$> action li) real) (parameters rnet)) in
    reward_loss rep = Some (mse_loss est real) /\
    reward_network self' = Some (set_parameters rnet (snd step)) /\
    reward_network_optimizer self' = Some (fst step).
Proof.
  intros H Hon tb li real. apply train_inv in H. cbv zeta in H.
  destruct H as (self1 & grads & res & scores & _ & _ & _ & _ & _ & _ &
    Hsuper & _ & _ & _ & Hrn & Hro & _ & _ & _ & Hoffs & _ & _ & _ &
    Hcpe & _ & _ & Hrl & _).
  fold tb li in Hcpe.
  unfold calculate_cpes in Hcpe. rewrite Hsuper in Hcpe.
  cbn [calc_cpe_in_training set_minibatch] in Hcpe.
  rewrite Hon in Hcpe. cbn [negb] in Hcpe. cbv iota in Hcpe.
  fold li in Hcpe. fold real in Hcpe.
  apply rbind_Ok in Hcpe as (rnet & Hrnet & Hcpe).
  apply rbind_Ok in Hcpe as (offsets & Hoff & Hcpe).
  apply rbind_Ok in Hcpe as (est & Hest & Hcpe).
  apply rbind_Ok in Hcpe as (r_opt & Hropt & Hcpe).
  destruct (optimizer_step r_opt _ _) as [r_opt' r_params] eqn:Hstep.
  apply rbind_Ok in Hcpe as (qc & Hqc & Hcpe).
  apply rbind_Ok in Hcpe as (mq & Hmq & Hcpe).
  apply rbind_Ok in Hcpe as (qct & Hqct & Hcpe).
  apply rbind_Ok in Hcpe as (maxm & Hmaxm & Hcpe).
  apply rbind_Ok in Hcpe as (c_opt & Hcopt & Hcpe).
  destruct (optimizer_step c_opt _ _) as [c_opt' c_params].
  apply rbind_Ok in Hcpe as (sc & Hsc & Hcpe).
  apply rbind_Ok in Hcpe as (off0 & Hoff0 & Hcpe).
  apply rbind_Ok in Hcpe as (rm & Hrm & Hcpe).
  injection Hcpe as <- <- _.
  apply getattr_Ok in Hrnet, Hoff, Hropt.
  rewrite Hrn in Hrnet. rewrite Hoffs in Hoff. rewrite Hro in Hropt.
  exists rnet, offsets, r_opt, est.
  split; [exact Hrnet|]. split; [exact Hoff|]. split; [exact Hropt|].
  split; [exact Hest|].
  cbv zeta. rewrite Hstep. cbn.
  split; [rewrite Hrl; reflexivity|]. split; reflexivity.
Qed.

(** The training of the reward model takes nothing from the Q-networks:
    two trainers with the same reward network, optimizer state of it and
    offset table, both with CPE enabled, leave a successful step on the same
    batch with the same reward network, the same optimizer state and the
    same reward loss, whatever their Q-networks, CPE value networks,
    boosts, step counters and discounts are. *)
Theorem reward_model_is_isolated (a b a' b' : _DQNTrainer)
    (input : TrainInput TrainingDataPage) (rep_a rep_b : Report)
    (loc_a loc_b : TrainLocals) :
  train as_batch a input = Ok (a', rep_a, loc_a) ->
  train as_batch b input = Ok (b', rep_b, loc_b) ->
  calc_cpe_in_training (super a) = true ->
  calc_cpe_in_training (super b) = true ->
  reward_network a = reward_network b ->
  reward_network_optimizer a = reward_network_optimizer b ->
  reward_idx_offsets a = reward_idx_offsets b ->
  reward_network a' = reward_network b' /\
  reward_network_optimizer a' = reward_network_optimizer b' /\
  reward_loss rep_a = reward_loss rep_b /\
  is_Some (reward_loss rep_a).
Proof.
  intros Ha Hb Hona Honb Hrn Hro Hoffs.
  destruct (reward_model_step _ _ _ _ _ Ha Hona)
    as (rnet & offsets & r_opt & est & Hrn_a & Hoffs_a & Hro_a & Hest_a &
        Hloss_a & Hnet_a & Hopt_a).
  destruct (reward_model_step _ _ _ _ _ Hb Honb)
    as (rnet' & offsets' & r_opt' & est' & Hrn_b & Hoffs_b & Hro_b & Hest_b &
        Hloss_b & Hnet_b & Hopt_b).
  assert (rnet' = rnet) as -> by congruence.
  assert (offsets' = offsets) as -> by congruence.
  assert (r_opt' = r_opt) as -> by congruence.
  assert (est' = est) as -> by congruence.
  rewrite Hloss_a, Hloss_b, Hnet_a, Hnet_b, Hopt_a, Hopt_b.
  repeat split; try reflexivity. eexists; reflexivity.
Qed.

(** The primary update takes nothing from the CPE subsystem: two trainers
    with the same base attributes, Q-network, target network, primary
    optimizer state, boosts and double-Q flag leave a successful step on
    the same batch with the same targets, selected actions, Q-network,
    target network, optimizer state and reported model values, whatever
    their reward and CPE value networks are. *)
Theorem primary_update_is_isolated (a b a' b' : _DQNTrainer)
    (input : TrainInput TrainingDataPage) (rep_a rep_b : Report)
    (loc_a loc_b : TrainLocals) :
  train as_batch a input = Ok (a', rep_a, loc_a) ->
  train as_batch b input = Ok (b', rep_b, loc_b) ->
  super a = super b ->
  q_network a = q_network b ->
  q_network_target a = q_network_target b ->
  q_network_optimizer a = q_network_optimizer b ->
  reward_boosts a = reward_boosts b ->
  double_q_learning a = double_q_learning b ->
  target_q_values loc_a = target_q_values loc_b /\
  max_q_action_idxs loc_a = max_q_action_idxs loc_b /\
  q_network a' = q_network b' /\
  q_network_target a' = q_network_target b' /\
  model_values rep_a = model_values rep_b /\
  super a' = super b'.
Proof.
  intros Ha Hb Hsuper Hq Hqt Hopt Hrb Hdq.
  apply train_inv in Ha, Hb. cbv zeta in Ha, Hb.
  destruct Ha as (a1 & ga & ra & sa & Hsel_a & Hboost_a & Hfilt_a & Htgt_a &
    Hall_a & Hg_a & Hs_a & Hq_a & Hqt_a & Hsc_a & _ & _ & _ & _ & _ & _ & _ &
    _ & _ & Hcpe_a & Hsc_a' & Hmv_a & _).
  destruct Hb as (b1 & gb & rb & sb & Hsel_b & Hboost_b & Hfilt_b & Htgt_b &
    Hall_b & Hg_b & Hs_b & Hq_b & Hqt_b & Hsc_b & _ & _ & _ & _ & _ & _ & _ &
    _ & _ & Hcpe_b & Hsc_b' & Hmv_b & _).
  apply calculate_cpes_frame in Hcpe_a
    as (Hsa & Hqa & Hqta & _ & Hsca & _).
  apply calculate_cpes_frame in Hcpe_b
    as (Hsb & Hqb & Hqtb & _ & Hscb & _).
  rewrite <- Hsuper, <- Hq, <- Hqt, <- Hdq in Hsel_b.
  rewrite Hsel_a in Hsel_b. injection Hsel_b as Hnext Hidx.
  rewrite <- Hrb in Hboost_b. rewrite <- Hboost_a in Hboost_b.
  rewrite <- Hnext in Hfilt_b. rewrite <- Hfilt_a in Hfilt_b.
  rewrite <- Hsuper, Hboost_b, Hfilt_b in Htgt_b.
  rewrite <- Htgt_a in Htgt_b.
  rewrite <- Hsuper, <- Hq, Htgt_b in Hg_b. rewrite <- Hg_a in Hg_b.
  rewrite <- Hsuper, <- Hq, <- Hopt, Hg_b in Hq_b. rewrite <- Hq_a in Hq_b.
  rewrite <- Hsuper, <- Hqt, Hq_b in Hqt_b. rewrite <- Hqt_a in Hqt_b.
  rewrite <- Hq in Hall_b. rewrite <- Hall_a in Hall_b.
  split; [congruence|]. split; [congruence|].
  split; [congruence|]. split; [congruence|].
  split; [|congruence].
  rewrite Hmv_a, Hmv_b.
  rewrite Hsca, Hsc_a in Hsc_a'. rewrite Hscb, Hsc_b in Hsc_b'.
  congruence.
Qed.

End Isolation.

(** ** The further properties on the fixture *)

Lemma variant_step_q :
  exists self' rep loc,
    Variant.step (Variant.with_q_network [1; 1; 1]) = Ok (self', rep, loc).
Proof.
  unfold Variant.step, train, get_max_q_values, get_max_q_values_with_target,
    calculate_cpes, select_rows, select_row, masked_argmax.
  crunch; decide_reals; crunch; decide_reals; crunch.
  do 3 eexists; reflexivity.
Qed.

Lemma variant_step_cpe :
  exists self' rep loc,
    Variant.step (Variant.with_cpe_networks [1; 1; 1] [7; 8; 9])
    = Ok (self', rep, loc).
Proof.
  unfold Variant.step, train, get_max_q_values, get_max_q_values_with_target,
    calculate_cpes, select_rows, select_row, masked_argmax.
  crunch; decide_reals; crunch; decide_reals; crunch.
  do 3 eexists; reflexivity.
Qed.

Lemma fixture_train_all (cpe maxq : bool) (burnin : Z) :
  exists self,
    train_all (optimizer := Fixture.sgd)
      (autograd := Fixture.central_differences) Fixture.as_batch
      (Fixture.trainer cpe maxq burnin) [Batch Fixture.batch]
    = Ok self.
Proof.
  destruct (fixture_run cpe maxq burnin 1 ltac:(lia)) as (s & r & l & H).
  unfold Fixture.run in H. cbn [train_all].
  change (Fixture.batch_taking 1) with Fixture.batch in H. rewrite H.
  eexists; reflexivity.
Qed.

(** The offset table of the fixture, one metric and three actions, after a
    step. *)
Lemma offsets_are_multiples_of_num_actions_witness :
  exists self,
    train_all (optimizer := Fixture.sgd)
      (autograd := Fixture.central_differences) Fixture.as_batch
      (Fixture.trainer true false 0) [Batch Fixture.batch] = Ok self /\
    reward_idx_offsets self = Some [0%nat].
Proof.
  destruct (fixture_train_all true false 0) as (s & H).
  exists s. split; [exact H|].
  exact (offsets_are_multiples_of_num_actions TrainingBatch Fixture.as_batch
           _ _ _ _ _ _ _ _ _ _ _ _ (init_fixture true false 0) H eq_refl).
Defined.

(** Gathering from one row of three values with one metric; a second index
    row is rejected. *)
Lemma gather_reads_metric_blocks_witness :
  (exists g,
     gather_offsets [[4; 5; 6]] ((fun m => (m * 3)%nat) <$> seq 0 1) [2%nat]
     = Ok g /\
     length g = 1%nat /\
     exists vals v,
       g !! 0%nat = Some vals /\ length vals = 1%nat /\
       vals !! 0%nat = Some v /\ [4; 5; 6] !! 2%nat = Some v) /\
  gather_offsets [[4; 5; 6]] ((fun m => (m * 3)%nat) <$> seq 0 1)
    [1%nat; 2%nat]
  = Raise (RuntimeError "Size does not match").
Proof.
  split.
  - destruct (gather_reads_metric_blocks [[4; 5; 6]] 1 3 [2%nat])
      as (_ & Hok).
    + intros [|i] row Hrow; [|destruct i; discriminate].
      injection Hrow as <-. simpl. lia.
    + intros [|i] a Ha; [|destruct i; discriminate].
      injection Ha as <-. lia.
    + destruct (Hok ltac:(simpl; lia)) as (g & Hg & Hlen & Hread).
      exists g. split; [exact Hg|]. split; [exact Hlen|].
      destruct (Hread 0%nat 0%nat 2%nat [4; 5; 6] eq_refl eq_refl ltac:(lia))
        as (vals & v & Hvals & Hlv & Hv & Hrow & _).
      exists vals, v. auto.
  - apply (gather_reads_metric_blocks [[4; 5; 6]] 1 3 [1%nat; 2%nat]).
    + intros [|i] row Hrow; [|destruct i; discriminate].
      injection Hrow as <-. simpl. lia.
    + intros [|[|i]] a Ha; [| |destruct i; discriminate];
        injection Ha as <-; lia.
    + simpl. lia.
Defined.

(** The boost vector of the fixture has three entries after a step. *)
Lemma reward_boosts_one_per_action_witness :
  exists self,
    train_all (optimizer := Fixture.sgd)
      (autograd := Fixture.central_differences) Fixture.as_batch
      (Fixture.trainer true false 0) [Batch Fixture.batch] = Ok self /\
    length (reward_boosts self) = num_actions self /\
    num_actions self = 3%nat.
Proof.
  destruct (fixture_train_all true false 0) as (s & H).
  exists s. split; [exact H|].
  exact (reward_boosts_one_per_action TrainingBatch Fixture.as_batch
           _ _ _ _ _ _ _ _ _ _ _ _ (init_fixture true false 0) H).
Defined.

(** Construction of the fixture trainer succeeds, with CPE enabled. *)
Lemma construction_succeeds_witness :
  exists self0 : _DQNTrainer (optimizer := Fixture.sgd),
    __init__ (Fixture.base_init true false 0)
      (Fixture.bias_network [0; 0; 0]) (Fixture.bias_network [1; 2; 3])
      (Some (Fixture.bias_network [0; 0; 0])) Fixture.params false
      (Some (Fixture.bias_network [0; 0; 0]))
      (Some (Fixture.bias_network [4; 5; 6])) None = Ok self0 /\
    q_network self0 = Fixture.bias_network [0; 0; 0] /\
    loss self0 = None.
Proof.
  destruct (construction_succeeds (optimizer := Fixture.sgd)
              (Fixture.base_init true false 0)
              (Fixture.bias_network [0; 0; 0]) (Fixture.bias_network [1; 2; 3])
              (Some (Fixture.bias_network [0; 0; 0])) Fixture.params false
              (Some (Fixture.bias_network [0; 0; 0]))
              (Some (Fixture.bias_network [4; 5; 6])) None)
    as (self0 & Hinit & _ & _ & Hq & _ & _ & _ & Hloss & _).
  - intros _. simpl. repeat split; try (eexists; reflexivity). lia.
  - intros boost k v Hboost Hin. injection Hboost as <-.
    apply list_elem_of_singleton in Hin. injection Hin as -> _.
    simpl. rewrite !elem_of_cons. auto.
  - exists self0. auto.
Defined.

(** The counter of the fixture trainer after one step. *)
Lemma step_counter_counts_steps_witness :
  exists self,
    train_all (optimizer := Fixture.sgd)
      (autograd := Fixture.central_differences) Fixture.as_batch
      (Fixture.trainer true false 0) [Batch Fixture.batch] = Ok self /\
    minibatch (super self) = 1%Z.
Proof.
  destruct (fixture_train_all true false 0) as (s & H).
  exists s. split; [exact H|].
  exact (proj1 (step_counter_counts_steps TrainingBatch Fixture.as_batch
                  _ _ _ H)).
Defined.


(** [calculate_cpes] on the fixture trainer with CPE disabled. *)
Lemma calculate_cpes_keeps_primary_witness :
  exists s' res cl,
    calculate_cpes (optimizer := Fixture.sgd)
      (autograd := Fixture.central_differences)
      (Fixture.trainer false true 0) Fixture.batch [[0]] [1%nat] [0%nat]
      [9 / 10] [1] = Ok (s', res, cl) /\
    q_network s' = Fixture.bias_network [0; 0; 0].
Proof.
  eexists _, _, _. split; [reflexivity|].
  exact (proj1 (proj2 (calculate_cpes_keeps_primary
                         (optimizer := Fixture.sgd)
                         (autograd := Fixture.central_differences)
                         (Fixture.trainer false true 0) _ Fixture.batch
                         [[0]] [1%nat] [0%nat] [9 / 10] [1] _ _ eq_refl))).
Defined.

(** The report of a step of the fixture: action B is logged as index 1 and
    its Q-value is the second entry of the snapshot. *)
Lemma step_report_witness :
  exists self' rep loc,
    Fixture.run true false 0 Fixture.batch = Ok (self', rep, loc) /\
    loss self' = Some (td_loss rep) /\
    logged_actions rep !! 0%nat = Some 1%nat.
Proof.
  destruct (fixture_run true false 0 1 ltac:(lia)) as (s & r & l & H).
  exists s, r, l. split; [exact H|]. unfold Fixture.run in H.
  destruct (step_report TrainingBatch Fixture.as_batch _ _ _ _ _ H)
    as (_ & Hloss & _ & _ & _ & _ & _ & Hrows).
  split; [exact Hloss|].
  exact (proj2 (Hrows 0%nat 3%nat 1%nat [0; 0; 0] 0 eq_refl ltac:(lia)
                  eq_refl eq_refl)).
Defined.

(** The reward tensor of the fixture batch, which has no metrics. *)
Lemma cpe_rewards_are_raw_witness :
  exists self' rep loc cl,
    Fixture.run true false 0 Fixture.batch = Ok (self', rep, loc) /\
    cpe_locals loc = Some cl /\
    metrics_reward_concat_real_vals cl !! 0%nat = Some [1].
Proof.
  destruct (fixture_run true false 0 1 ltac:(lia)) as (s & r & l & H).
  pose proof H as H0. unfold Fixture.run in H.
  destruct (cpe_rewards_are_raw TrainingBatch Fixture.as_batch _ _ _ _ _ H
              eq_refl) as (cl & Hcl & Hnone & _).
  exists s, r, l, cl. split; [exact H0|]. split; [exact Hcl|].
  exact (Hnone eq_refl 0%nat 1 eq_refl).
Defined.

(** The model rewards of the fixture: the three estimates of its reward
    network. *)
Lemma model_rewards_first_block_witness :
  exists self' rep loc rm mr,
    Fixture.run true false 0 Fixture.batch = Ok (self', rep, loc) /\
    model_rewards rep = Some rm /\ rm !! 0%nat = Some mr /\
    length mr = 3%nat.
Proof.
  destruct (fixture_run true false 0 1 ltac:(lia)) as (s & r & l & H).
  pose proof H as H0. unfold Fixture.run in H.
  destruct (model_rewards_first_block TrainingBatch Fixture.as_batch
              _ _ _ _ _ H eq_refl)
    as (rnet & offsets & off0 & rm & Hrn & _ & _ & Hrm & _ & Hrows).
  injection Hrn as <-.
  destruct (Hrows 0%nat [0; 0; 0] eq_refl) as (mr & Hmr & Hlen & _).
  exists s, r, l, rm, mr. auto.
Defined.

(** Two trainers with other primary networks train the same reward model. *)
Lemma reward_model_is_isolated_witness :
  exists a' rep_a loc_a b' rep_b loc_b,
    Variant.step (Variant.with_q_network [1; 1; 1]) = Ok (a', rep_a, loc_a) /\
    Variant.step (Variant.with_q_network [0; 0; 0]) = Ok (b', rep_b, loc_b) /\
    reward_network a' = reward_network b' /\
    reward_loss rep_a = reward_loss rep_b.
Proof.
  destruct variant_step_q as (a' & ra & la & Ha).
  destruct (fixture_run true false 0 1 ltac:(lia)) as (b' & rb & lb & Hb).
  exists a', ra, la, b', rb, lb.
  split; [exact Ha|]. split; [exact Hb|].
  unfold Variant.step in Ha. unfold Fixture.run in Hb.
  destruct (reward_model_is_isolated TrainingBatch Fixture.as_batch
              _ _ _ _ _ _ _ _ _ Ha Hb eq_refl eq_refl eq_refl eq_refl eq_refl)
    as (Hnet & _ & Hloss & _).
  auto.
Defined.

(** Two trainers with other reward and CPE target networks take the same
    primary step. *)
Lemma primary_update_is_isolated_witness :
  exists a' rep_a loc_a b' rep_b loc_b,
    Variant.step (Variant.with_cpe_networks [1; 1; 1] [7; 8; 9])
      = Ok (a', rep_a, loc_a) /\
    Variant.step (Variant.with_cpe_networks [0; 0; 0] [4; 5; 6])
      = Ok (b', rep_b, loc_b) /\
    q_network a' = q_network b' /\
    target_q_values loc_a = target_q_values loc_b.
Proof.
  destruct variant_step_cpe as (a' & ra & la & Ha).
  destruct (fixture_run true false 0 1 ltac:(lia)) as (b' & rb & lb & Hb).
  exists a', ra, la, b', rb, lb.
  split; [exact Ha|]. split; [exact Hb|].
  unfold Variant.step in Ha. unfold Fixture.run in Hb.
  destruct (primary_update_is_isolated TrainingBatch Fixture.as_batch
              _ _ _ _ _ _ _ _ _ Ha Hb eq_refl eq_refl eq_refl eq_refl eq_refl
              eq_refl)
    as (Htgt & _ & Hq & _).
  auto.
Defined.

(** On the fixture with an unknown boosted action and no CPE target
    network, the assertion is what the constructor raises. *)
Lemma construction_assertions_come_first_witness :
  __init__ (optimizer := Fixture.sgd) (Fixture.base_init true false 0)
    (Fixture.bias_network [0; 0; 0]) (Fixture.bias_network [1; 2; 3])
    (Some (Fixture.bias_network [0; 0; 0]))
    Fixture.params_with_unknown_boost false
    (Some (Fixture.bias_network [0; 0; 0])) None None
  = Raise (AssertionError
             "q_network_cpe and q_network_cpe_target are required for CPE").
Proof.
  apply (construction_assertions_come_first (optimizer := Fixture.sgd)
           (Fixture.base_init true false 0)).
  - reflexivity.
  - eexists; reflexivity.
  - right; reflexivity.
Defined.
